(** * BookScraper: extraction and persistence contracts

    A shallow embedding of [main.py]: the Playwright scraper
    [BookScraper.fetch_data] and the SQLAlchemy store [DatabaseManager].

    Python values are modelled as follows.
    - [str] is a list of Unicode code points ([N]); [lit] turns an ASCII
      literal of the source into such a list.
    - [None] is [option]'s [None]; calling a method on [None] raises
      [AttributeError].
    - [print] appends a line to an explicit [stdout].
    - exceptions are the left summand of the result of a computation in
      the state-and-exception monad [M]. *)

From Stdlib Require Import ZArith NArith List Lia Bool String Ascii DecimalString.
From stdpp Require Import base option list gmap strings.

Local Open Scope N_scope.
Local Open Scope list_scope.

(** ** Python strings *)

Definition char := N.
Definition str := list char.

(** An ASCII literal of the source, as a sequence of code points. *)
Definition lit (s : string) : str :=
  map N_of_ascii (list_ascii_of_string s).

Definition space : char := 32.

(** The literal of line 81 of [main.py]: the source file holds the bytes
    C3 82 C2 A3, which Python reads as the two code points U+00C2 U+00A3. *)
Definition mojibake_pound : str := [194; 163].

(** The pound sign itself, U+00A3. *)
Definition pound_sign : str := [163].

(** [s.startswith(p)] *)
Fixpoint startswith (p s : str) : bool :=
  match p, s with
  | [], _ => true
  | _ :: _, [] => false
  | a :: p', b :: s' => (a =? b) && startswith p' s'
  end.

(** Left-to-right scan of [str.replace] for a non-empty [old]: [skip]
    counts the characters of the current occurrence still to be dropped. *)
Fixpoint replace_from (old new : str) (skip : nat) (s : str) : str :=
  match s with
  | [] => []
  | c :: s' =>
      match skip with
      | S k => replace_from old new k s'
      | O =>
          if startswith old s
          then new ++ replace_from old new (length old - 1) s'
          else c :: replace_from old new 0 s'
      end
  end.

(** [s.replace(old, new)]: every non-overlapping occurrence, leftmost
    first; an empty [old] matches before every character and at the end. *)
Definition replace (old new s : str) : str :=
  match old with
  | [] => new ++ flat_map (fun c => c :: new) s
  | _ :: _ => replace_from old new 0 s
  end.

(** [s.split(sep)] for a one-character separator: every occurrence of
    [sep] ends a token, so consecutive separators give empty tokens. *)
Fixpoint split (sep : char) (s : str) : list str :=
  match s with
  | [] => [[]]
  | c :: s' =>
      if c =? sep then [] :: split sep s'
      else match split sep s' with
           | [] => [[c]]
           | t :: ts => (c :: t) :: ts
           end
  end.

(** [sep.join(ts)] *)
Fixpoint join (sep : char) (ts : list str) : str :=
  match ts with
  | [] => []
  | [t] => t
  | t :: ts' => t ++ sep :: join sep ts'
  end.

(** [c.isspace()]: the code points Python's [str.strip()] removes. *)
Definition isspace (c : char) : bool :=
  ((9 <=? c) && (c <=? 13)) || ((28 <=? c) && (c <=? 32))
  || (c =? 133) || (c =? 160) || (c =? 5760)
  || ((8192 <=? c) && (c <=? 8202))
  || (c =? 8232) || (c =? 8233) || (c =? 8239) || (c =? 8287)
  || (c =? 12288).

Fixpoint lstrip (s : str) : str :=
  match s with
  | [] => []
  | c :: s' => if isspace c then lstrip s' else s
  end.

Definition rstrip (s : str) : str := rev (lstrip (rev s)).

(** [s.strip()] *)
Definition strip (s : str) : str := rstrip (lstrip s).

(** [str(n)] for a non-negative [int]. *)
Definition str_of_nat (n : nat) : str :=
  lit (DecimalString.NilZero.string_of_uint (Nat.to_uint n)).

(** ** Python floats

    A float is kept as the exact value of the decimal literal it was read
    from, [(-1)^negative * mantissa * 10^exponent]; the rounding to
    binary64 is a function of that value and is not modelled. *)
Inductive pyfloat : Type :=
| Finite (negative : bool) (mantissa : N) (exponent : Z)
| Infinity (negative : bool)
| NaN.

(** ** Computations: state and exceptions *)

Section Monad.
Context {S E : Type}.

Definition M (A : Type) : Type := S -> S * (E + A).

Definition ret {A} (a : A) : M A := fun s => (s, inr a).

Definition raise {A} (e : E) : M A := fun s => (s, inl e).

Definition bind {A B} (m : M A) (k : A -> M B) : M B :=
  fun s =>
    match m s with
    | (s', inl e) => (s', inl e)
    | (s', inr a) => k a s'
    end.

(** [try: body  except Exception as e: handler e] *)
Definition try_except {A} (body : M A) (handler : E -> M A) : M A :=
  fun s =>
    match body s with
    | (s', inl e) => handler e s'
    | (s', inr a) => (s', inr a)
    end.

(** [try: body  finally: cleanup]: the cleanup runs on every exit path;
    an exception of the body is re-raised after it. *)
Definition try_finally {A} (body : M A) (cleanup : M unit) : M A :=
  fun s =>
    match body s with
    | (s', r) =>
        match cleanup s' with
        | (s'', inl e) => (s'', inl e)
        | (s'', inr _) => (s'', r)
        end
    end.

Definition get : M S := fun s => (s, inr s).
Definition modify (f : S -> S) : M unit := fun s => (f s, inr tt).
End Monad.

Arguments M : clear implicits.

Declare Scope py_scope.
Delimit Scope py_scope with py.
Notation "'let*' x ':=' m 'in' k" :=
  (bind m (fun x => k))
  (at level 10, x name, m at level 100, k at level 200) : py_scope.
Notation "m ';;' k" :=
  (bind m (fun _ => k))
  (at level 100, k at level 200, right associativity) : py_scope.

Local Open Scope py_scope.

(** ** A reference [float]

    Python's builtin [float(s)] on a [str]: the decimal digits of every
    script are read as 0 to 9, surrounding whitespace is dropped, then
    the whole rest must read as
    [[sign] (number [exponent] | "inf" | "infinity" | "nan")], letters in
    either case, with single underscores allowed between digits; a value
    too large for a binary64 is infinity.  The scraper below takes [float]
    as a parameter; this instance is the one its examples run with. *)

(** The whitespace [float] drops: the ASCII characters C calls space, and
    the Unicode whitespace from U+007F on, which CPython turns into a
    space first.  The controls U+001C to U+001F are whitespace for
    [str.strip] but not here. *)
Definition float_space (c : char) : bool :=
  ((9 <=? c) && (c <=? 13)) || (c =? 32) || ((127 <=? c) && isspace c).

Fixpoint lstrip_float (s : str) : str :=
  match s with
  | [] => []
  | c :: s' => if float_space c then lstrip_float s' else s
  end.

Definition strip_float (s : str) : str :=
  rev (lstrip_float (rev (lstrip_float s))).

(** Half-way between the largest binary64 and [2^1024]: from here on a
    value rounds to infinity. *)
Definition overflow_bound : Z := (2 ^ 1024 - 2 ^ 970)%Z.

Definition overflows (m : N) (e : Z) : bool :=
  if m =? 0 then false
  else if (0 <=? e)%Z
       then (overflow_bound <=? Z.of_N m * 10 ^ e)%Z
       else (overflow_bound * 10 ^ (- e) <=? Z.of_N m)%Z.

(** The digits zero of the decimal digits of Unicode 14.0, the table of
    CPython 3.11; the nine code points after each are its digits 1 to 9. *)
Definition decimal_zeros : list N :=
  [48; 1632; 1776; 1984; 2406; 2534; 2662; 2790; 2918; 3046; 3174; 3302;
   3430; 3558; 3664; 3792; 3872; 4160; 4240; 6112; 6160; 6470; 6608; 6784;
   6800; 6992; 7088; 7232; 7248; 42528; 43216; 43264; 43472; 43504; 43600;
   44016; 65296; 66720; 68912; 69734; 69872; 69942; 70096; 70384; 70736;
   70864; 71248; 71360; 71472; 71904; 72016; 72784; 73040; 73120; 92768;
   92864; 93008; 120782; 120792; 120802; 120812; 120822; 123200; 123632;
   125264; 130032].

(** [Py_UNICODE_TODECIMAL]. *)
Definition digit_value (c : char) : option N :=
  match find (fun z => (z <=? c) && (c <? z + 10)) decimal_zeros with
  | Some z => Some (c - z)
  | None => None
  end.

Definition isdigit (c : char) : bool :=
  match digit_value c with Some _ => true | None => false end.

(** [digit (["_"] digit)*], continuing from [cnt] digits read so far with
    value [acc]; returns the value, the digit count and the unread rest. *)
Fixpoint digitpart (acc : N) (cnt : N) (s : str) : N * N * str :=
  match s with
  | [] => (acc, cnt, s)
  | c :: s' =>
      match digit_value c with
      | Some d => digitpart (10 * acc + d) (cnt + 1) s'
      | None =>
          if (c =? 95) && (0 <? cnt)
          then match s' with
               | c' :: _ => if isdigit c' then digitpart acc cnt s' else (acc, cnt, s)
               | [] => (acc, cnt, s)
               end
          else (acc, cnt, s)
      end
  end.

Definition lower (c : char) : char :=
  if (65 <=? c) && (c <=? 90) then c + 32 else c.

Definition str_eqb (a b : str) : bool :=
  bool_decide (a = b).

(** An optional sign: [true] for a minus. *)
Definition read_sign (s : str) : bool * str :=
  match s with
  | 45 :: s' => (true, s')
  | 43 :: s' => (false, s')
  | _ => (false, s)
  end.

(** [e [sign] digitpart], or nothing. *)
Definition read_exponent (s : str) : option (Z * str) :=
  match s with
  | [] => Some (0%Z, [])
  | c :: s' =>
      if (lower c =? 101)
      then let '(neg, s1) := read_sign s' in
           let '(e, n, s2) := digitpart 0 0 s1 in
           if 0 <? n
           then Some (if neg then (- Z.of_N e)%Z else Z.of_N e, s2)
           else None
      else None
  end.

Definition float_of_str (s : str) : option pyfloat :=
  let '(neg, body) := read_sign (strip_float s) in
  let word := map lower body in
  if str_eqb word (lit "inf") || str_eqb word (lit "infinity")
  then Some (Infinity neg)
  else if str_eqb word (lit "nan") then Some NaN
  else
    let '(i, ni, s1) := digitpart 0 0 body in
    let '(m, nf, s2) :=
      match s1 with
      | 46 :: s1' =>
          let '(m, n, s2) := digitpart i 0 s1' in (m, n, s2)
      | _ => (i, 0, s1)
      end in
    if 0 <? ni + nf
    then match read_exponent s2 with
         | Some (e, []) =>
             let e10 := (e - Z.of_N nf)%Z in
             Some (if overflows m e10 then Infinity neg else Finite neg m e10)
         | _ => None
         end
    else None.

(** ** The page, as Playwright shows it to the scraper *)

(** A handle on an element: its attributes and its rendered text. *)
Record ElementHandle : Type := {
  attributes : gmap string str;
  text : str
}.

(** [el.get_attribute(name)]: [None] when the attribute is absent. *)
Definition get_attribute (name : string) (el : ElementHandle) : option str :=
  attributes el !! name.

(** [el.inner_text()] *)
Definition inner_text (el : ElementHandle) : str := text el.

(** A [.product_pod] element: what each selector queried inside it
    yields (its first match, if any), and whether it is visible. *)
Record ProductPod : Type := {
  descendants : gmap string ElementHandle;
  visible : bool
}.

(** [book.query_selector(selector)]: [None] when nothing matches. *)
Definition query_selector (selector : string) (book : ProductPod)
  : option ElementHandle :=
  descendants book !! selector.

(** The document [page.goto(self.base_url)] loaded: its [.product_pod]
    elements in document order.  The document does not change while
    [fetch_data] runs. *)
Definition Page := list ProductPod.

Definition query_selector_all_product_pod (page : Page) : list ProductPod :=
  page.

Inductive ScrapeError : Type :=
| AttributeError   (* a method called on [None] *)
| ValueError       (* [float] given a text that is no number *)
| TimeoutError.    (* [wait_for_selector] gave up *)

(** States that carry a standard output. *)
Class Stdout (S : Type) : Type := write_line : str -> S -> S.

(** [print(line)] *)
Definition print {S E} `{Stdout S} (line : str) : M S E unit :=
  modify (write_line line).

(** The scraper's state is the standard output, a list of lines. *)
Definition Scrape := M (list str) ScrapeError.

#[export] Instance stdout_lines : Stdout (list str) :=
  fun line out => out ++ [line].

(** [o.method(...)] on an [Optional] receiver. *)
Definition call {A B} (o : option A) (method : A -> B) : Scrape B :=
  match o with
  | Some x => ret (method x)
  | None => raise AttributeError
  end.

(** [page.wait_for_selector(".product_pod")] with Playwright's default
    state: returns once the first match is visible; on a document that
    never shows one it raises after the timeout. *)
Definition wait_for_selector_product_pod (page : Page) : Scrape unit :=
  match page with
  | [] => raise TimeoutError
  | book :: _ => if visible book then ret tt else raise TimeoutError
  end.

(** ** Data models *)

(** [BookData]: the dataclass does not check its annotations, so [title]
    holds whatever [get_attribute] returned, [None] included. *)
Record BookData : Type := {
  title : option str;
  price : pyfloat;
  availability : str;
  rating : str
}.

(** A value inside an f-string. *)
Definition format_optional (o : option str) : str :=
  match o with
  | Some s => s
  | None => lit "None"
  end.

Record BookScraper : Type := { base_url : str }.

(** ** [BookScraper.fetch_data] *)

Section Scraper.
(** Python's builtin [float] on a [str]; [None] where it raises
    [ValueError]. *)
Variable float : str -> option pyfloat.

Definition py_float (s : str) : Scrape pyfloat :=
  match float s with
  | Some x => ret x
  | None => raise ValueError
  end.

(** The extraction steps of the loop body, lines 73 to 92. *)
Definition scrape_book (book : ProductPod) : Scrape BookData :=
  let title_el := query_selector "h3 a" book in
  let* title := call title_el (get_attribute "title") in
  let price_el := query_selector ".price_color" book in
  let* price_text := call price_el inner_text in
  let* price := py_float (replace mojibake_pound [] price_text) in
  let avail_el := query_selector ".instock.availability" book in
  let* avail_text := call avail_el inner_text in
  let avail := strip avail_text in
  let rating_el := query_selector ".star-rating" book in
  let* rating_class := call rating_el (get_attribute "class") in
  let* rating := call rating_class (replace (lit "star-rating ") []) in
  ret {| title := title; price := price;
         availability := avail; rating := rating |}.

(** [for book in books: ...], with [results] the list built so far. *)
Fixpoint for_book_in (books : list ProductPod) (results : list BookData)
  : Scrape (list BookData) :=
  match books with
  | [] => ret results
  | book :: books' =>
      let* book_obj := scrape_book book in
      let results := results ++ [book_obj] in
      print (lit "Scraped: " ++ format_optional (title book_obj));;
      for_book_in books' results
  end.

Definition fetch_data (self : BookScraper) (page : Page)
  : Scrape (list BookData) :=
  print (lit "Starting scrape on " ++ base_url self ++ lit "...");;
  let results := [] in
  wait_for_selector_product_pod page;;
  let books := query_selector_all_product_pod page in
  let* results := for_book_in books results in
  ret results.
End Scraper.

(** ** The store: SQLAlchemy over SQLite *)

Module sa.
Inductive type_ : Type := Integer | String | Float.

Record Column : Type := {
  name : string;
  coltype : type_;
  primary_key : bool;
  nullable : bool
}.
End sa.

(** [BookModel], the ORM class of the [books] table, and a row of that
    table; [id] is [None] until the row is inserted, [price] is [None]
    for a NULL. *)
Module BookModel.
Record t : Type := {
  id : option Z;
  title : option str;
  price : option pyfloat;
  availability : str;
  rating : str
}.

Definition __tablename__ : string := "books".

Definition __table__ : list sa.Column :=
  [ {| sa.name := "id"; sa.coltype := sa.Integer;
       sa.primary_key := true; sa.nullable := false |};
    {| sa.name := "title"; sa.coltype := sa.String;
       sa.primary_key := false; sa.nullable := true |};
    {| sa.name := "price"; sa.coltype := sa.Float;
       sa.primary_key := false; sa.nullable := true |};
    {| sa.name := "availability"; sa.coltype := sa.String;
       sa.primary_key := false; sa.nullable := true |};
    {| sa.name := "rating"; sa.coltype := sa.String;
       sa.primary_key := false; sa.nullable := true |} ].

(** [BookModel(title=..., price=..., availability=..., rating=...)] *)
Definition init (title : option str) (price : pyfloat)
    (availability rating : str) : t :=
  {| id := None; title := title; price := Some price;
     availability := availability; rating := rating |}.
End BookModel.

(** [Base.metadata]: the tables registered on the declarative base. *)
Definition metadata : list (string * list sa.Column) :=
  [ (BookModel.__tablename__, BookModel.__table__) ].

(** A table: its columns and its rows, in the order they were inserted. *)
Record Table : Type := {
  columns : list sa.Column;
  rows : list BookModel.t
}.

(** A database: its tables by name. *)
Abbreviation Database := (gmap string Table).

(** What a raised exception shows: its class and [str(e)]. *)
Record Exception : Type := {
  exc_type : string;
  exc_str : str
}.

(** What [create_engine] makes of a connection string: the in-memory
    database, or a database file. *)
Inductive Url : Type :=
| MemoryUrl
| FileUrl (file : string).

(** Where a database lives: in a file, one database per file, or in the
    memory of one engine, one database per engine. *)
Inductive Location : Type :=
| OnDisk (file : string)
| InMemory (n : nat).

#[export] Instance Location_eq_dec : EqDecision Location.
Proof. solve_decision. Defined.

#[export] Instance Location_countable : Countable Location :=
  inj_countable'
    (fun l => match l with OnDisk s => inl s | InMemory n => inr n end)
    (fun x => match x with inl s => OnDisk s | inr n => InMemory n end)
    (fun l => match l with OnDisk _ => eq_refl | InMemory _ => eq_refl end).

(** A session object: the engine it is bound to; its pending objects
    ([session.new]) in the order they were added; the primary keys of its
    persistent objects, those inserted by the open transaction and those
    of committed ones; whether it holds a connection with an open
    transaction; and whether [close] was the last thing called on it. *)
Record Session : Type := {
  bind_ : Location;
  new : list BookModel.t;
  inserted : list Z;
  persistent : list Z;
  in_transaction : bool;
  closed : bool
}.

(** The world the store runs in.
    - [databases]: the committed content at each location, which is what
      any reader sees;
    - [write_txn]: for a database with an open write transaction, the
      uncommitted content that transaction works on (SQLite allows one
      writer at a time);
    - [stdout];
    - [session]: the session object of the call in progress. *)
Record World : Type := {
  databases : gmap Location Database;
  write_txn : gmap Location Database;
  stdout : list str;
  session : Session
}.

Definition set_databases (d : gmap Location Database) (w : World) : World :=
  {| databases := d; write_txn := write_txn w;
     stdout := stdout w; session := session w |}.

Definition set_write_txn (t : gmap Location Database) (w : World) : World :=
  {| databases := databases w; write_txn := t;
     stdout := stdout w; session := session w |}.

Definition set_session (x : Session) (w : World) : World :=
  {| databases := databases w; write_txn := write_txn w;
     stdout := stdout w; session := x |}.

#[export] Instance stdout_world : Stdout World :=
  fun line w =>
    {| databases := databases w; write_txn := write_txn w;
       stdout := stdout w ++ [line]; session := session w |}.

Definition Store := M World Exception.

(** The failures the store itself runs into. *)
Inductive Failure : Type :=
| DatabaseLocked    (* another writer holds the database *)
| NoSuchTable       (* the statement names a table that is not there *)
| NoSuchColumn      (* the statement names a column the table lacks *)
| UnencodableText   (* a text to bind is no Unicode text *)
| DatabaseFull      (* no unused rowid was found *)
| NotNullViolated   (* NULL for a column declared NOT NULL *)
| UnparsableUrl.    (* [create_engine] cannot read the connection string *)

(** The environment of a call.
    - [add_fault k]: the [k]-th [session.add] raises;
    - [insert_fault k]: the [k]-th INSERT of a flush raises (a fault of
      the connection or of the storage, or a constraint the model of the
      table does not hold);
    - [commit_fault]: COMMIT raises;
    - [random_rowid k]: the unused rowid SQLite finds at random for the
      [k]-th INSERT once the largest rowid is taken, if it finds one;
    - [exception_for]: the exception object SQLAlchemy raises for a
      failure of the store, with its text. *)
Record Faults : Type := {
  add_fault : nat -> option Exception;
  insert_fault : nat -> option Exception;
  commit_fault : option Exception;
  random_rowid : nat -> option Z;
  exception_for : Failure -> Exception
}.

(** The database at a location; where there is none yet, an empty one. *)
Definition database_at (target : Location) (w : World) : Database :=
  default ∅ (databases w !! target).

(** The largest rowid SQLite has: rowids are signed 64-bit integers. *)
Definition max_rowid : Z := (2 ^ 63 - 1)%Z.

Definition rowids (rs : list BookModel.t) : list Z :=
  omap BookModel.id rs.

(** SQLite's rowid for a new row of an [INTEGER PRIMARY KEY] table: 1 in
    an empty table, else one more than the largest in the table; when the
    largest is [max_rowid], a positive one found at random that is not in
    use, if one is found. *)
Definition new_rowid (f : Faults) (k : nat) (rs : list BookModel.t)
  : option Z :=
  match rowids rs with
  | [] => Some 1%Z
  | i :: ids =>
      let largest := foldr Z.max i ids in
      if (largest <? max_rowid)%Z then Some (largest + 1)%Z
      else match random_rowid f k with
           | Some c =>
               if bool_decide ((1 <= c <= max_rowid)%Z /\ c ∉ i :: ids)
               then Some c
               else None
           | None => None
           end
  end.

(** A Python float bound to a REAL column: SQLite keeps NaN as NULL. *)
Definition bind_real (x : option pyfloat) : option pyfloat :=
  match x with
  | Some NaN => None
  | _ => x
  end.

(** The row the INSERT of an object writes. *)
Definition stored_row (i : Z) (record : BookModel.t) : BookModel.t :=
  {| BookModel.id := Some i;
     BookModel.title := BookModel.title record;
     BookModel.price := bind_real (BookModel.price record);
     BookModel.availability := BookModel.availability record;
     BookModel.rating := BookModel.rating record |}.

Definition column_names (t : Table) : list string :=
  map sa.name (columns t).

(** The table has every column of the list. *)
Definition has_columns (names : list string) (t : Table) : bool :=
  forallb (fun n => bool_decide (n ∈ column_names t)) names.

(** The columns the INSERT of the ORM names; [id] is left to SQLite. *)
Definition inserted_columns : list string :=
  ["title"; "price"; "availability"; "rating"]%string.

(** The columns the SELECT of the ORM names. *)
Definition selected_columns : list string :=
  ("id" :: inserted_columns)%string.

(** A code point that is half of a surrogate pair: a [str] that holds one
    has no UTF-8 encoding, and the driver refuses to bind it. *)
Definition surrogate (c : char) : bool :=
  (55296 <=? c)%N && (c <=? 57343)%N.

Definition encodable (s : str) : bool :=
  forallb (fun c => negb (surrogate c)) s.

(** The texts of the object can be bound. *)
Definition bindable (record : BookModel.t) : bool :=
  match BookModel.title record with
  | Some s => encodable s
  | None => true
  end
  && encodable (BookModel.availability record)
  && encodable (BookModel.rating record).

(** The INSERT would put NULL into the column. *)
Definition null_in (c : sa.Column) (record : BookModel.t) : bool :=
  if String.eqb (sa.name c) "title"
  then bool_decide (BookModel.title record = None)
  else if String.eqb (sa.name c) "price"
       then bool_decide (bind_real (BookModel.price record) = None)
       else false.

(** No NULL goes into a column declared NOT NULL. *)
Definition not_null_ok (cols : list sa.Column) (record : BookModel.t) : bool :=
  forallb (fun c => sa.nullable c || negb (null_in c record)) cols.

(** [INSERT INTO books (title, price, availability, rating) VALUES ...]
    on a table: the new table and the rowid of the new row.  The
    statement is prepared, which needs the columns; its parameters are
    bound; then the row gets its rowid and is checked and written.  The
    values are kept as they were bound, as the column types of
    [BookModel] keep them. *)
Definition store_row (f : Faults) (k : nat) (record : BookModel.t) (t : Table)
  : Exception + Table * Z :=
  if has_columns inserted_columns t
  then if bindable record
       then match new_rowid f k (rows t) with
            | Some i =>
                if not_null_ok (columns t) record
                then inr ({| columns := columns t;
                             rows := rows t ++ [stored_row i record] |}, i)
                else inl (exception_for f NotNullViolated)
            | None => inl (exception_for f DatabaseFull)
            end
       else inl (exception_for f UnencodableText)
  else inl (exception_for f NoSuchColumn).

(** [Base.metadata.create_all(engine)]: CREATE TABLE for every registered
    table the database does not have yet ([checkfirst] is on). *)
Definition create_all (tables : list (string * list sa.Column)) (db : Database)
  : Database :=
  foldl (fun db '(name, cols) =>
           match db !! name with
           | Some _ => db
           | None => <[name := {| columns := cols; rows := [] |}]> db
           end) db tables.

(** The in-memory databases there are, by number. *)
Definition memory_numbers (dbs : gmap Location Database) : list nat :=
  omap (fun kv => match fst kv with
                  | InMemory n => Some n
                  | OnDisk _ => None
                  end) (map_to_list dbs).

(** A number no in-memory database has. *)
Definition fresh_memory (dbs : gmap Location Database) : nat :=
  foldr (fun n m => Nat.max (S n) m) 0%nat (memory_numbers dbs).

Record DatabaseManager : Type := { engine : Location }.

Section Engine.
(** How [create_engine] and the file system read a connection string:
    [None] when the string is no URL ([ArgumentError]); the in-memory
    database; or the database file it names, the same for every spelling
    of one file. *)
Variable resolve : string -> option Url.

(** [create_engine(connection_string)]: every engine on the in-memory
    URL has a database of its own. *)
Definition create_engine (f : Faults) (connection_string : string)
  : Store Location :=
  fun w =>
    match resolve connection_string with
    | None => (w, inl (exception_for f UnparsableUrl))
    | Some MemoryUrl => (w, inr (InMemory (fresh_memory (databases w))))
    | Some (FileUrl file) => (w, inr (OnDisk file))
    end.

(** [Base.metadata.create_all(self.engine)] on the world: a table that
    is missing is written, which needs the write lock. *)
Definition metadata_create_all (f : Faults) (target : Location) : Store unit :=
  fun w =>
    let db := database_at target w in
    match db !! BookModel.__tablename__, write_txn w !! target with
    | None, Some _ => (w, inl (exception_for f DatabaseLocked))
    | _, _ =>
        (set_databases (<[target := create_all metadata db]> (databases w)) w,
         inr tt)
    end.

(** [DatabaseManager.__init__]; [sessionmaker] only keeps the engine. *)
Definition DatabaseManager_init (f : Faults) (connection_string : string)
  : Store DatabaseManager :=
  let* engine := create_engine f connection_string in
  metadata_create_all f engine;;
  ret {| engine := engine |}.
End Engine.

(** [self.Session()]: a new session bound to the engine; no connection is
    made yet. *)
Definition Session_call (self : DatabaseManager) : Store unit :=
  modify (set_session {| bind_ := engine self; new := []; inserted := [];
                         persistent := []; in_transaction := false;
                         closed := false |}).

(** [session.add(record)]: no statement is sent, the object is pending. *)
Definition session_add (f : Faults) (k : nat) (record : BookModel.t)
  : Store unit :=
  match add_fault f k with
  | Some e => raise e
  | None =>
      modify (fun w =>
        set_session {| bind_ := bind_ (session w);
                       new := new (session w) ++ [record];
                       inserted := inserted (session w);
                       persistent := persistent (session w);
                       in_transaction := in_transaction (session w);
                       closed := false |} w)
  end.

(** The connection begins a write transaction on the committed content. *)
Definition begin (f : Faults) : Store unit :=
  fun w =>
    let target := bind_ (session w) in
    match write_txn w !! target with
    | Some _ => (w, inl (exception_for f DatabaseLocked))
    | None =>
        (set_session {| bind_ := target; new := new (session w);
                        inserted := inserted (session w);
                        persistent := persistent (session w);
                        in_transaction := true;
                        closed := closed (session w) |}
           (set_write_txn (<[target := database_at target w]> (write_txn w)) w),
         inr tt)
    end.

(** The [k]-th INSERT of a flush, inside the open transaction; it gives
    the rowid of the new row. *)
Definition execute_insert (f : Faults) (k : nat) (record : BookModel.t)
  : Store Z :=
  fun w =>
    let target := bind_ (session w) in
    match insert_fault f k with
    | Some e => (w, inl e)
    | None =>
        match write_txn w !! target with
        | None => (w, inl (exception_for f NoSuchTable))
        | Some db =>
            match db !! BookModel.__tablename__ with
            | None => (w, inl (exception_for f NoSuchTable))
            | Some t =>
                match store_row f k record t with
                | inl e => (w, inl e)
                | inr (t', i) =>
                    (set_write_txn
                       (<[target := <[BookModel.__tablename__ := t']> db]>
                          (write_txn w)) w,
                     inr i)
                end
            end
        end
    end.

(** One INSERT per object, in order; the rowids of the new rows. *)
Fixpoint insert_all (f : Faults) (k : nat) (records : list BookModel.t)
  : Store (list Z) :=
  match records with
  | [] => ret []
  | record :: records' =>
      let* i := execute_insert f k record in
      let* ids := insert_all f (S k) records' in
      ret (i :: ids)
  end.

(** ROLLBACK on the connection and its release: the uncommitted content
    is dropped. *)
Definition release : Store unit :=
  modify (fun w =>
    if in_transaction (session w)
    then set_session {| bind_ := bind_ (session w); new := new (session w);
                        inserted := inserted (session w);
                        persistent := persistent (session w);
                        in_transaction := false;
                        closed := closed (session w) |}
           (set_write_txn (delete (bind_ (session w)) (write_txn w)) w)
    else w).

(** The pending objects have become persistent, with these keys. *)
Definition register_persistent (ids : list Z) : Store unit :=
  modify (fun w =>
    set_session {| bind_ := bind_ (session w); new := [];
                   inserted := inserted (session w) ++ ids;
                   persistent := persistent (session w);
                   in_transaction := in_transaction (session w);
                   closed := closed (session w) |} w).

(** The objects of the transaction that ended are kept ([kept]) or leave
    the session. *)
Definition end_transaction (kept : bool) : Store unit :=
  modify (fun w =>
    set_session {| bind_ := bind_ (session w);
                   new := if kept then new (session w) else [];
                   inserted := [];
                   persistent := if kept
                                 then persistent (session w)
                                      ++ inserted (session w)
                                 else persistent (session w);
                   in_transaction := in_transaction (session w);
                   closed := closed (session w) |} w).

(** Every object leaves the session, which is now closed. *)
Definition expunge_all : Store unit :=
  modify (fun w =>
    set_session {| bind_ := bind_ (session w); new := []; inserted := [];
                   persistent := [];
                   in_transaction := in_transaction (session w);
                   closed := true |} w).

(** [session.flush()]: nothing to do without pending objects; otherwise
    one INSERT per pending object, in the order of [add], after which the
    objects are persistent; when an INSERT fails the transaction is
    rolled back and the exception goes on. *)
Definition flush (f : Faults) : Store unit :=
  let* w := get in
  match new (session w) with
  | [] => ret tt
  | records =>
      (if in_transaction (session w) then ret tt else begin f);;
      try_except
        (let* ids := insert_all f 0 records in register_persistent ids)
        (fun e => release;; raise e)
  end.

(** [session.commit()]: flush, then COMMIT if a transaction is open: the
    content the transaction worked on becomes the committed content and
    the connection is released; the objects stay in the session. *)
Definition commit (f : Faults) : Store unit :=
  flush f;;
  let* w := get in
  let target := bind_ (session w) in
  match in_transaction (session w), write_txn w !! target with
  | true, Some db =>
      match commit_fault f with
      | Some e => raise e
      | None =>
          modify (set_databases (<[target := db]> (databases w)));;
          release;;
          end_transaction true
      end
  | _, _ => ret tt
  end.

(** [session.rollback()]: the transaction is rolled back; the pending
    objects and those it had inserted leave the session. *)
Definition rollback : Store unit := release;; end_transaction false.

(** [session.close()]: the connection is released, with a rollback of
    what is uncommitted, and every object leaves the session. *)
Definition close : Store unit := release;; expunge_all.

(** ** [DatabaseManager.save_books] *)

(** [for b in books: ...]; [k] counts the calls of [session.add]. *)
Fixpoint for_b_in (f : Faults) (k : nat) (books : list BookData) : Store unit :=
  match books with
  | [] => ret tt
  | b :: books' =>
      let record := BookModel.init (title b) (price b) (availability b) (rating b) in
      session_add f k record;;
      for_b_in f (S k) books'
  end.

Definition save_books (f : Faults) (self : DatabaseManager)
    (books : list BookData) : Store unit :=
  Session_call self;;
  try_finally
    (try_except
       (for_b_in f 0 books;;
        commit f;;
        print (lit "Successfully saved " ++ str_of_nat (length books)
                 ++ lit " books."))
       (fun e =>
          print (lit "Error saving to DB: " ++ exc_str e);;
          rollback))
    close.

(** Rows as a scan of the table delivers them: by ascending rowid. *)
Definition rowid (r : BookModel.t) : Z := default 0%Z (BookModel.id r).

Fixpoint place (r : BookModel.t) (rs : list BookModel.t) : list BookModel.t :=
  match rs with
  | [] => [r]
  | x :: rs' =>
      if (rowid x <=? rowid r)%Z then x :: place r rs' else r :: x :: rs'
  end.

Definition in_rowid_order (rs : list BookModel.t) : list BookModel.t :=
  foldl (fun acc r => place r acc) [] rs.

(** [session.query(BookModel).all()] on a new session: the committed rows
    of the table by ascending rowid; [None] when the SELECT fails, for
    want of the table or of one of its columns. *)
Definition query_all (self : DatabaseManager) (w : World)
  : option (list BookModel.t) :=
  t ← database_at (engine self) w !! BookModel.__tablename__;
  if has_columns selected_columns t
  then Some (in_rowid_order (rows t))
  else None.
(** ** Vocabulary of the statements about the scraper *)

(** The outcome of the extraction steps on one entry; they do not print. *)
Definition extract (float : str -> option pyfloat) (book : ProductPod)
  : ScrapeError + BookData :=
  snd (scrape_book float book []).

(** The lines [fetch_data] prints. *)
Definition starting_line (self : BookScraper) : str :=
  lit "Starting scrape on " ++ base_url self ++ lit "...".

Definition scraped_line (r : BookData) : str :=
  lit "Scraped: " ++ format_optional (title r).

(** An entry the loop body gets through: the four queried elements are
    there, the price text without the literal of line 81 reads as a
    float, and the rating element has a class attribute. *)
Definition well_formed (float : str -> option pyfloat) (book : ProductPod)
  : Prop :=
  exists title_el price_el avail_el rating_el x cls,
    query_selector "h3 a" book = Some title_el /\
    query_selector ".price_color" book = Some price_el /\
    float (replace mojibake_pound [] (inner_text price_el)) = Some x /\
    query_selector ".instock.availability" book = Some avail_el /\
    query_selector ".star-rating" book = Some rating_el /\
    get_attribute "class" rating_el = Some cls.

(** The first step of the loop body that raises on an entry, and what it
    raises.  The steps come in the order of the source: title anchor,
    price element, price text, availability element, rating element,
    class attribute of the rating element. *)
Inductive raises (float : str -> option pyfloat) (book : ProductPod)
  : ScrapeError -> Prop :=
| raises_no_title_anchor :
    query_selector "h3 a" book = None ->
    raises float book AttributeError
| raises_no_price_element (title_el : ElementHandle) :
    query_selector "h3 a" book = Some title_el ->
    query_selector ".price_color" book = None ->
    raises float book AttributeError
| raises_price_text (title_el price_el : ElementHandle) :
    query_selector "h3 a" book = Some title_el ->
    query_selector ".price_color" book = Some price_el ->
    float (replace mojibake_pound [] (inner_text price_el)) = None ->
    raises float book ValueError
| raises_no_availability_element (title_el price_el : ElementHandle)
    (x : pyfloat) :
    query_selector "h3 a" book = Some title_el ->
    query_selector ".price_color" book = Some price_el ->
    float (replace mojibake_pound [] (inner_text price_el)) = Some x ->
    query_selector ".instock.availability" book = None ->
    raises float book AttributeError
| raises_no_rating_element (title_el price_el avail_el : ElementHandle)
    (x : pyfloat) :
    query_selector "h3 a" book = Some title_el ->
    query_selector ".price_color" book = Some price_el ->
    float (replace mojibake_pound [] (inner_text price_el)) = Some x ->
    query_selector ".instock.availability" book = Some avail_el ->
    query_selector ".star-rating" book = None ->
    raises float book AttributeError
| raises_no_class_attribute
    (title_el price_el avail_el rating_el : ElementHandle) (x : pyfloat) :
    query_selector "h3 a" book = Some title_el ->
    query_selector ".price_color" book = Some price_el ->
    float (replace mojibake_pound [] (inner_text price_el)) = Some x ->
    query_selector ".instock.availability" book = Some avail_el ->
    query_selector ".star-rating" book = Some rating_el ->
    get_attribute "class" rating_el = None ->
    raises float book AttributeError.

(** [wait_for_selector] returns: the first entry is visible. *)
Definition first_visible (page : Page) : Prop :=
  exists book, head page = Some book /\ visible book = true.

(** ** Example values *)

Definition element (t : str) (attrs : list (string * str)) : ElementHandle :=
  {| attributes := list_to_map attrs; text := t |}.

(** An entry as books.toscrape.com lays it out. *)
Definition product_pod (anchor : list (string * str))
    (price_text avail cls : str) : ProductPod :=
  {| descendants := list_to_map
       [ ("h3 a"%string, element [] anchor);
         (".price_color"%string, element price_text []);
         (".instock.availability"%string, element avail []);
         (".star-rating"%string, element [] [("class"%string, cls)]) ];
     visible := true |}.

Definition attic_title : str := lit "A Light in the Attic".

(** Price text U+00C2 U+00A3 "51.77". *)
Definition attic_mojibake : ProductPod :=
  product_pod [("title"%string, attic_title)]
    (mojibake_pound ++ lit "51.77") (lit "  In stock ")
    (lit "star-rating Three").

(** Price text U+00A3 "51.77", as a browser renders the page. *)
Definition attic_pound : ProductPod :=
  product_pod [("title"%string, attic_title)]
    (pound_sign ++ lit "51.77") (lit "  In stock ")
    (lit "star-rating Three").

(** The anchor is there, its [title] attribute is not. *)
Definition attic_untitled : ProductPod :=
  product_pod [] (mojibake_pound ++ lit "51.77") (lit "  In stock ")
    (lit "star-rating Three").

Definition attic_record : BookData :=
  {| title := Some attic_title; price := Finite false 5177 (-2);
     availability := lit "In stock"; rating := lit "Three" |}.

Definition toscrape : BookScraper :=
  {| base_url := lit "http://books.toscrape.com/" |}.


(** A rating class attribute of three tokens. *)
Definition attic_three_tokens : ProductPod :=
  product_pod [("title"%string, attic_title)]
    (mojibake_pound ++ lit "51.77") (lit "  In stock ")
    (lit "star-rating Three extra").

(** No availability element, and a price text that is no number. *)
Definition pod_without_stock (price_text : str) : ProductPod :=
  {| descendants := list_to_map
       [ ("h3 a"%string, element [] [("title"%string, attic_title)]);
         (".price_color"%string, element price_text []);
         (".star-rating"%string,
          element [] [("class"%string, lit "star-rating Three")]) ];
     visible := true |}.

(** ** Vocabulary of the statements about the store *)

(** The first fault the environment holds for the calls numbered
    [k], [k+1], ..., [k+n-1]. *)
Fixpoint first_fault (g : nat -> option Exception) (k n : nat)
  : option Exception :=
  match n with
  | O => None
  | S n' =>
      match g k with
      | Some e => Some e
      | None => first_fault g (S k) n'
      end
  end.

(** The ORM object the loop builds from a record. *)
Definition record_of (b : BookData) : BookModel.t :=
  BookModel.init (title b) (price b) (availability b) (rating b).

(** The [k]-th INSERT of a flush on the table it finds. *)
Definition insert_one (f : Faults) (k : nat) (record : BookModel.t) (t : Table)
  : Exception + Table * Z :=
  match insert_fault f k with
  | Some e => inl e
  | None => store_row f k record t
  end.

(** The INSERTs of a flush, from the [k]-th on: the exception of the
    first that fails, or the table and the rowids they leave. *)
Fixpoint insert_many (f : Faults) (k : nat) (records : list BookModel.t)
    (t : Table) : Exception + Table * list Z :=
  match records with
  | [] => inr (t, [])
  | record :: records' =>
      match insert_one f k record t with
      | inl e => inl e
      | inr (t', i) =>
          match insert_many f (S k) records' t' with
          | inl e => inl e
          | inr (t'', ids) => inr (t'', i :: ids)
          end
      end
  end.

(** The exception the try suite of [save_books] runs into, if any: a
    failing [session.add]; with records to write, a database another
    writer holds, a missing table, a failing INSERT, or a failing COMMIT. *)
Definition save_fault (f : Faults) (self : DatabaseManager)
    (books : list BookData) (w : World) : option Exception :=
  match first_fault (add_fault f) 0 (length books) with
  | Some e => Some e
  | None =>
      match books with
      | [] => None
      | _ :: _ =>
          match write_txn w !! engine self with
          | Some _ => Some (exception_for f DatabaseLocked)
          | None =>
              match database_at (engine self) w !! BookModel.__tablename__ with
              | None =>
                  Some (default (exception_for f NoSuchTable) (insert_fault f 0))
              | Some t =>
                  match insert_many f 0 (map record_of books) t with
                  | inl e => Some e
                  | inr _ => commit_fault f
                  end
              end
          end
      end
  end.

(** A row holds the fields of a record as the store keeps them: the
    title, availability and rating as they are, the price as it is unless
    it is NaN, which is kept as NULL. *)
Definition stored_fields (b : BookData) (r : BookModel.t) : Prop :=
  BookModel.title r = title b
  /\ BookModel.price r = bind_real (Some (price b))
  /\ BookModel.availability r = availability b
  /\ BookModel.rating r = rating b.

(** A row holds the very fields of a record. *)
Definition same_fields (b : BookData) (r : BookModel.t) : Prop :=
  BookModel.title r = title b /\ BookModel.price r = Some (price b) /\
  BookModel.availability r = availability b /\ BookModel.rating r = rating b.

(** The session [save_books] leaves behind: closed, without objects and
    without a transaction. *)
Definition closed_session (self : DatabaseManager) : Session :=
  {| bind_ := engine self; new := []; inserted := []; persistent := [];
     in_transaction := false; closed := true |}.

Definition success_line (books : list BookData) : str :=
  lit "Successfully saved " ++ str_of_nat (length books) ++ lit " books.".

Definition error_line (e : Exception) : str :=
  lit "Error saving to DB: " ++ exc_str e.

(** The committed content after a save that went through. *)
Definition saved_databases (f : Faults) (self : DatabaseManager)
    (books : list BookData) (w : World) : gmap Location Database :=
  match books, database_at (engine self) w !! BookModel.__tablename__ with
  | _ :: _, Some t =>
      match insert_many f 0 (map record_of books) t with
      | inr (t', _) =>
          <[engine self := <[BookModel.__tablename__ := t']>
                             (database_at (engine self) w)]> (databases w)
      | inl _ => databases w
      end
  | _, _ => databases w
  end.

(** The world [save_books] ends in. *)
Definition after_save (f : Faults) (self : DatabaseManager)
    (books : list BookData) (w : World) : World :=
  match save_fault f self books w with
  | None =>
      {| databases := saved_databases f self books w;
         write_txn := write_txn w;
         stdout := stdout w ++ [success_line books];
         session := closed_session self |}
  | Some e =>
      {| databases := databases w;
         write_txn := write_txn w;
         stdout := stdout w ++ [error_line e];
         session := closed_session self |}
  end.

(** The session with other pending objects, in use. *)
Definition with_new (pending : list BookModel.t) (w : World) : World :=
  set_session {| bind_ := bind_ (session w); new := pending;
                 inserted := inserted (session w);
                 persistent := persistent (session w);
                 in_transaction := in_transaction (session w);
                 closed := false |} w.

(** The open transaction of the session with other content. *)
Definition with_txn (db : Database) (w : World) : World :=
  set_write_txn (<[bind_ (session w) := db]> (write_txn w)) w.

(** The open write transactions once the session lets go of its own. *)
Definition released (w : World) : gmap Location Database :=
  if in_transaction (session w)
  then delete (bind_ (session w)) (write_txn w)
  else write_txn w.

(** No writer holds the database behind the handle. *)
Definition unlocked (self : DatabaseManager) (w : World) : Prop :=
  write_txn w !! engine self = None.

(** The environment holds no fault for a batch of [n] records. *)
Definition fault_free (f : Faults) (n : nat) : Prop :=
  (forall k, (k < n)%nat -> add_fault f k = None /\ insert_fault f k = None)
  /\ commit_fault f = None.

(** The rowids of the table leave room for [n] more rows above them. *)
Definition room_for (n : nat) (rs : list BookModel.t) : Prop :=
  forall i, i ∈ 0%Z :: rowids rs -> (i + Z.of_nat n <= max_rowid)%Z.

(** The environment of one flush that meets, for its first [n] records,
    what [f1] holds for them, and for the others what [f2] holds for
    those of a second batch; its COMMIT goes through. *)
Definition faults_then (f1 : Faults) (n : nat) (f2 : Faults) : Faults :=
  {| add_fault := fun k =>
       if (k <? n)%nat then add_fault f1 k else add_fault f2 (k - n);
     insert_fault := fun k =>
       if (k <? n)%nat then insert_fault f1 k else insert_fault f2 (k - n);
     commit_fault := None;
     random_rowid := fun k =>
       if (k <? n)%nat then random_rowid f1 k else random_rowid f2 (k - n);
     exception_for := exception_for f2 |}.

(** Rows that all have an identifier within the 64 bits of a rowid, no
    two the same. *)
Definition well_keyed (rs : list BookModel.t) : Prop :=
  Forall (fun r => exists i, BookModel.id r = Some i
                             /\ (- 2 ^ 63 <= i <= max_rowid)%Z) rs
  /\ NoDup (rowids rs).

(** The [books] table behind the handle is there with the columns of
    [BookModel], as [DatabaseManager] creates it. *)
Definition model_table (self : DatabaseManager) (w : World) : Prop :=
  exists t,
    database_at (engine self) w !! BookModel.__tablename__ = Some t
    /\ columns t = BookModel.__table__.

(** The texts of a record can be bound to a statement. *)
Definition storable (b : BookData) : Prop :=
  bindable (record_of b) = true.

(** A text that neither starts nor ends with a whitespace character. *)
Definition no_surrounding_space (s : str) : Prop :=
  (forall c, head s = Some c -> isspace c = false)
  /\ (forall c, last s = Some c -> isspace c = false).

(** ** Example values for the store *)

(** The exceptions of the example environments, their texts shortened.
    SQLAlchemy wraps the error of the driver: the text starts with the
    class of that error and the message of SQLite, and goes on with the
    statement, its parameters and a link, which depend on the version;
    the examples keep the beginning only.  The statements hold for every
    [exception_for]. *)
Definition operational_error (message : string) : Exception :=
  {| exc_type := "OperationalError";
     exc_str := lit "(sqlite3.OperationalError) " ++ lit message |}.

Definition example_exception (failure : Failure) : Exception :=
  match failure with
  | DatabaseLocked => operational_error "database is locked"
  | NoSuchTable => operational_error "no such table: books"
  | NoSuchColumn => operational_error "table books has no column named title"
  | UnencodableText =>
      {| exc_type := "UnicodeEncodeError";
         exc_str := lit "'utf-8' codec can't encode character" |}
  | DatabaseFull => operational_error "database or disk is full"
  | NotNullViolated =>
      {| exc_type := "IntegrityError";
         exc_str := lit "(sqlite3.IntegrityError) NOT NULL constraint failed" |}
  | UnparsableUrl =>
      {| exc_type := "ArgumentError";
         exc_str := lit "Could not parse SQLAlchemy URL" |}
  end.

Definition no_faults : Faults :=
  {| add_fault := fun _ => None; insert_fault := fun _ => None;
     commit_fault := None; random_rowid := fun _ => None;
     exception_for := example_exception |}.

Definition disk_full : Exception :=
  operational_error "database or disk is full".

(** The INSERT of the record numbered [k] fails. *)
Definition insert_fails_at (k : nat) : Faults :=
  {| add_fault := fun _ => None;
     insert_fault := fun i => if Nat.eqb i k then Some disk_full else None;
     commit_fault := None; random_rowid := fun _ => None;
     exception_for := example_exception |}.

Definition commit_fails : Faults :=
  {| add_fault := fun _ => None; insert_fault := fun _ => None;
     commit_fault := Some disk_full; random_rowid := fun _ => None;
     exception_for := example_exception |}.

(** SQLite finds the rowid [c] at random. *)
Definition finds_rowid (c : Z) : Faults :=
  {| add_fault := fun _ => None; insert_fault := fun _ => None;
     commit_fault := None; random_rowid := fun _ => Some c;
     exception_for := example_exception |}.

(** Plain SQLite URLs: the in-memory database, or
    [sqlite:///] followed by the name of the file. *)
Definition resolve_sqlite (s : string) : option Url :=
  if bool_decide (s = "sqlite://" \/ s = "sqlite:///"
                  \/ s = "sqlite:///:memory:")%string
  then Some MemoryUrl
  else if String.prefix "sqlite:///" s
       then Some (FileUrl (String.substring 10 (String.length s - 10) s))
       else None.

Definition books_db : string := "sqlite:///books.db".

Definition memory_db : string := "sqlite:///:memory:".

Definition manager : DatabaseManager := {| engine := OnDisk "books.db" |}.

(** Nothing on disk, nothing printed. *)
Definition empty_world : World :=
  {| databases := ∅; write_txn := ∅; stdout := [];
     session := {| bind_ := OnDisk ""; new := []; inserted := [];
                   persistent := []; in_transaction := false;
                   closed := false |} |}.

(** The world after [DatabaseManager("sqlite:///books.db")]. *)
Definition ready_world : World :=
  fst (DatabaseManager_init resolve_sqlite no_faults books_db empty_world).

Definition other_record : BookData :=
  {| title := Some (lit "Tipping the Velvet"); price := Finite false 5374 (-2);
     availability := lit "In stock"; rating := lit "One" |}.

(** A record whose price is not a number. *)
Definition nan_record : BookData :=
  {| title := Some (lit "Soumission"); price := NaN;
     availability := lit "In stock"; rating := lit "One" |}.

(** A [books] table with other columns. *)
Definition foreign_table : Table :=
  {| columns := [ {| sa.name := "id"; sa.coltype := sa.Integer;
                     sa.primary_key := true; sa.nullable := false |};
                  {| sa.name := "name"; sa.coltype := sa.String;
                     sa.primary_key := false; sa.nullable := true |} ];
     rows := [] |}.

(** ** [main] and the query of the test module *)

(** What [main] can raise: an exception of the scraper or one of the
    store. *)
Inductive MainError : Type :=
| ScrapeRaised (e : ScrapeError)
| StoreRaised (e : Exception).

(** A scraper computation inside the world: it runs on the standard
    output. *)
Definition lift_scrape {A} (m : Scrape A) : M World MainError A :=
  fun w =>
    match m (stdout w) with
    | (out, r) =>
        ({| databases := databases w; write_txn := write_txn w;
            stdout := out; session := session w |},
         match r with
         | inl e => inl (ScrapeRaised e)
         | inr a => inr a
         end)
    end.

Definition lift_store {A} (m : Store A) : M World MainError A :=
  fun w =>
    match m w with
    | (w', inl e) => (w', inl (StoreRaised e))
    | (w', inr a) => (w', inr a)
    end.

Definition TARGET_URL : str := lit "http://books.toscrape.com/".

Definition DB_CONNECTION : string := "sqlite:///books.db".

Definition no_data_line : str := lit "No data found.".

(** [main()], lines 131 to 144; [page] is the document behind
    [TARGET_URL], [f] the environment of the store.  [if data:] takes the
    first branch on a non-empty list. *)
Definition main (resolve : string -> option Url)
    (float : str -> option pyfloat) (page : Page) (f : Faults)
  : M World MainError unit :=
  let scraper := {| base_url := TARGET_URL |} in
  let* db_manager := lift_store (DatabaseManager_init resolve f DB_CONNECTION) in
  let* data := lift_scrape (fetch_data float scraper page) in
  match data with
  | _ :: _ => lift_store (save_books f db_manager data)
  | [] => print no_data_line
  end.

(** [session.query(BookModel).first()] on a new session, as in
    [test_database_save]: the committed row of least rowid, [None] in an
    empty table; the outer [None] stands for a SELECT that fails. *)
Definition query_first (self : DatabaseManager) (w : World)
  : option (option BookModel.t) :=
  rs ← query_all self w;
  Some (head rs).

(** An entry without price and stock elements. *)
Definition bare_pod : ProductPod :=
  {| descendants := list_to_map [("h3 a"%string, element [] [])];
     visible := true |}.
(** * Properties *)

(** ** Strings *)

Lemma startswith_app (p t : str) : startswith p (p ++ t) = true.
Proof.
  induction p as [|a p IH]; simpl; [reflexivity|].
  rewrite N.eqb_refl. exact IH.
Qed.

Lemma startswith_inv (p s : str) :
  startswith p s = true -> exists t, s = p ++ t.
Proof.
  revert s. induction p as [|a p IH]; intros s H.
  - exists s. reflexivity.
  - destruct s as [|b s]; simpl in H; [discriminate|].
    apply andb_true_iff in H as [Hab Hps].
    apply N.eqb_eq in Hab. subst b.
    destruct (IH s Hps) as [t ->]. exists t. reflexivity.
Qed.

Lemma replace_from_skip (old new p s : str) :
  replace_from old new (length p) (p ++ s) = replace_from old new 0 s.
Proof.
  induction p as [|a p IH]; simpl; [reflexivity | exact IH].
Qed.

(** An occurrence at the front is replaced and the scan goes on behind it. *)
Lemma replace_from_occurrence (old new s : str) :
  old <> [] ->
  replace_from old new 0 (old ++ s) = new ++ replace_from old new 0 s.
Proof.
  destruct old as [|a old']; [congruence|]. intros _.
  change ((a :: old') ++ s) with (a :: (old' ++ s)).
  cbn [replace_from].
  change (a :: old' ++ s) with ((a :: old') ++ s).
  rewrite startswith_app.
  replace (length (a :: old') - 1)%nat with (length old') by (simpl; lia).
  rewrite replace_from_skip. reflexivity.
Qed.

(** A text that lacks one of the characters of [old] has no occurrence. *)
Lemma replace_from_absent (old new s : str) (x : char) :
  x ∈ old -> x ∉ s -> replace_from old new 0 s = s.
Proof.
  intros Hold. induction s as [|c s IH]; intros Hs; [reflexivity|].
  cbn [replace_from].
  destruct (startswith old (c :: s)) eqn:Hsw.
  - apply startswith_inv in Hsw as [t Ht].
    exfalso. apply Hs. rewrite Ht. apply elem_of_app. left. exact Hold.
  - f_equal. apply IH. intros Hin. apply Hs. right. exact Hin.
Qed.

Lemma replace_prefix (old new rest : str) (x : char) :
  x ∈ old -> x ∉ rest -> replace old new (old ++ rest) = new ++ rest.
Proof.
  intros Hold Hrest.
  assert (Hne : old <> []) by (intros ->; inversion Hold).
  destruct old as [|a old']; [congruence|].
  unfold replace.
  rewrite replace_from_occurrence by exact Hne.
  f_equal. eapply replace_from_absent; eassumption.
Qed.

Lemma split_nonempty (sep : char) (s : str) : split sep s <> [].
Proof.
  destruct s as [|c s]; simpl; [discriminate|].
  destruct (c =? sep); [discriminate|].
  destruct (split sep s); discriminate.
Qed.

(** Joining the tokens with the separator gives the text back. *)
Lemma join_split (sep : char) (s : str) : join sep (split sep s) = s.
Proof.
  induction s as [|c s IH]; [reflexivity|].
  simpl. destruct (c =? sep) eqn:Hc.
  - apply N.eqb_eq in Hc. subst c.
    pose proof (split_nonempty sep s) as Hne.
    destruct (split sep s) as [|t ts]; [congruence|].
    simpl. simpl in IH. rewrite IH. reflexivity.
  - pose proof (split_nonempty sep s) as Hne.
    destruct (split sep s) as [|t ts]; [congruence|].
    destruct ts as [|t' ts]; simpl in *; rewrite <- IH; reflexivity.
Qed.

(** No token holds the separator. *)
Lemma split_tokens (sep : char) (s : str) :
  Forall (fun t => sep ∉ t) (split sep s).
Proof.
  induction s as [|c s IH]; simpl.
  - constructor; [|constructor]. intros H; inversion H.
  - destruct (c =? sep) eqn:Hc.
    + constructor; [|exact IH]. intros H; inversion H.
    + destruct (split sep s) as [|t ts].
      * constructor; [|constructor].
        intros H. apply list_elem_of_singleton in H. subst c.
        rewrite N.eqb_refl in Hc. discriminate.
      * inversion IH as [|? ? Ht Hts]; subst.
        constructor; [|exact Hts].
        intros H. apply elem_of_cons in H as [->|H]; [|tauto].
        rewrite N.eqb_refl in Hc. discriminate.
Qed.

Lemma split_two (sep : char) (s a w : str) :
  split sep s = [a; w] -> s = a ++ sep :: w /\ sep ∉ w.
Proof.
  intros H. split.
  - rewrite <- (join_split sep s), H. reflexivity.
  - pose proof (split_tokens sep s) as HF. rewrite H in HF.
    inversion HF as [|? ? _ HF']. inversion HF' as [|? ? Hw _]. exact Hw.
Qed.

(** The rating step on a class attribute of two tokens. *)
Lemma replace_star_rating (cls w : str) :
  split space cls = [lit "star-rating"; w] ->
  replace (lit "star-rating ") [] cls = w.
Proof.
  intros H. apply split_two in H as [-> Hw].
  change (lit "star-rating" ++ space :: w) with (lit "star-rating " ++ w).
  apply (replace_prefix (lit "star-rating ") [] w space); [|exact Hw].
  vm_compute. set_solver.
Qed.

(** Every token after the prefix stays in the rating. *)
Example replace_star_rating_three_tokens :
  replace (lit "star-rating ") [] (lit "star-rating Three extra")
  = lit "Three extra".
Proof. vm_compute. reflexivity. Qed.

(** The reference [float] on some texts. *)
Example float_of_str_51_77 :
  float_of_str (lit "51.77") = Some (Finite false 5177 (-2)).
Proof. vm_compute. reflexivity. Qed.

Example float_of_str_spaces_sign_underscore_exponent :
  float_of_str (lit " -1_000.5e-3 ") = Some (Finite true 10005 (-4)).
Proof. vm_compute. reflexivity. Qed.

Example float_of_str_rejects :
  float_of_str (lit "") = None /\ float_of_str (lit ".") = None
  /\ float_of_str (lit "1e") = None /\ float_of_str (lit "1__0") = None
  /\ float_of_str (lit "51,77") = None
  /\ float_of_str (pound_sign ++ lit "51.77") = None.
Proof. repeat split; vm_compute; reflexivity. Qed.

(** [strip] on the availability text of the site. *)
Example strip_in_stock :
  strip (lit "  In stock ") = lit "In stock".
Proof. vm_compute. reflexivity. Qed.

(** ** The scraper *)

Section ScraperProperties.
Variable float : str -> option pyfloat.

Lemma scrape_book_pure (book : ProductPod) (out : list str) :
  scrape_book float book out = (out, extract float book).
Proof.
  unfold extract, scrape_book, bind, call, py_float, ret, raise.
  destruct (query_selector "h3 a" book); [|reflexivity].
  destruct (query_selector ".price_color" book); [|reflexivity].
  destruct (float _); [|reflexivity].
  destruct (query_selector ".instock.availability" book); [|reflexivity].
  destruct (query_selector ".star-rating" book) as [el|]; [|reflexivity].
  destruct (get_attribute "class" el); reflexivity.
Qed.

Lemma extract_well_formed (book : ProductPod) :
  well_formed float book <-> exists r, extract float book = inr r.
Proof.
  unfold well_formed, extract, scrape_book, bind, call, py_float, ret, raise.
  split.
  - intros (a & p & av & st & x & cls & -> & -> & -> & -> & -> & ->).
    eexists. reflexivity.
  - intros [r H].
    destruct (query_selector "h3 a" book) as [a|]; [|discriminate].
    destruct (query_selector ".price_color" book) as [p|]; [|discriminate].
    destruct (float _) as [x|] eqn:Hx; [|discriminate].
    destruct (query_selector ".instock.availability" book) as [av|];
      [|discriminate].
    destruct (query_selector ".star-rating" book) as [st|]; [|discriminate].
    destruct (get_attribute "class" st) as [cls|] eqn:Hc; [|discriminate].
    exists a, p, av, st, x, cls. rewrite Hc. auto 10.
Qed.

(** What the steps put into the record. *)
Lemma extract_fields (book : ProductPod) (r : BookData) :
  extract float book = inr r ->
  exists title_el price_el avail_el rating_el cls,
    query_selector "h3 a" book = Some title_el /\
    query_selector ".price_color" book = Some price_el /\
    query_selector ".instock.availability" book = Some avail_el /\
    query_selector ".star-rating" book = Some rating_el /\
    get_attribute "class" rating_el = Some cls /\
    title r = get_attribute "title" title_el /\
    float (replace mojibake_pound [] (inner_text price_el)) = Some (price r) /\
    availability r = strip (inner_text avail_el) /\
    rating r = replace (lit "star-rating ") [] cls.
Proof.
  unfold extract, scrape_book, bind, call, py_float, ret, raise.
  intros H.
  destruct (query_selector "h3 a" book) as [a|]; [|discriminate].
  destruct (query_selector ".price_color" book) as [p|]; [|discriminate].
  destruct (float _) as [x|] eqn:Hx; [|discriminate].
  destruct (query_selector ".instock.availability" book) as [av|];
    [|discriminate].
  destruct (query_selector ".star-rating" book) as [st|]; [|discriminate].
  destruct (get_attribute "class" st) as [cls|] eqn:Hc; [|discriminate].
  simpl in H. injection H as <-.
  exists a, p, av, st, cls. simpl. rewrite Hc. auto 10.
Qed.

(** [raises] tells what the extraction steps raise. *)
Lemma extract_raises (book : ProductPod) (e : ScrapeError) :
  raises float book e <-> extract float book = inl e.
Proof.
  unfold extract, scrape_book, bind, call, py_float, ret, raise. split.
  - intros H. destruct H;
      repeat match goal with
             | H : _ = _ |- _ => rewrite H; clear H
             end; reflexivity.
  - destruct (query_selector "h3 a" book) as [a|] eqn:Ha.
    2:{ intros H. injection H as <-. apply raises_no_title_anchor. exact Ha. }
    destruct (query_selector ".price_color" book) as [p|] eqn:Hp.
    2:{ intros H. injection H as <-.
        eapply raises_no_price_element; eassumption. }
    destruct (float _) as [x|] eqn:Hx.
    2:{ intros H. injection H as <-. eapply raises_price_text; eassumption. }
    destruct (query_selector ".instock.availability" book) as [av|] eqn:Hav.
    2:{ intros H. injection H as <-.
        eapply raises_no_availability_element; eassumption. }
    destruct (query_selector ".star-rating" book) as [st|] eqn:Hst.
    2:{ intros H. injection H as <-.
        eapply raises_no_rating_element; eassumption. }
    destruct (get_attribute "class" st) as [cls|] eqn:Hc.
    + discriminate.
    + intros H. injection H as <-.
      eapply raises_no_class_attribute; eassumption.
Qed.

(** The loop on entries that all extract. *)
Lemma for_book_in_all (books : list ProductPod) (rs acc : list BookData)
    (out : list str) :
  Forall2 (fun book r => extract float book = inr r) books rs ->
  for_book_in float books acc out
  = (out ++ map scraped_line rs, inr (acc ++ rs)).
Proof.
  intros H. revert acc out.
  induction H as [|book r books rs Hr _ IH]; intros acc out.
  - simpl. unfold ret. rewrite !app_nil_r. reflexivity.
  - cbn [for_book_in]. unfold bind at 1. rewrite scrape_book_pure, Hr.
    unfold bind at 1. unfold print, modify, write_line, stdout_lines.
    rewrite IH. simpl. rewrite <- !app_assoc. reflexivity.
Qed.

(** The loop stops at the first entry that does not extract. *)
Lemma for_book_in_abort (good : list ProductPod) (bad : ProductPod)
    (rest : list ProductPod) (rs acc : list BookData) (out : list str)
    (e : ScrapeError) :
  Forall2 (fun book r => extract float book = inr r) good rs ->
  extract float bad = inl e ->
  for_book_in float (good ++ bad :: rest) acc out
  = (out ++ map scraped_line rs, inl e).
Proof.
  intros H Hbad. revert acc out.
  induction H as [|book r books rs Hr _ IH]; intros acc out.
  - simpl. unfold bind. rewrite scrape_book_pure, Hbad, app_nil_r. reflexivity.
  - cbn [for_book_in app]. unfold bind at 1. rewrite scrape_book_pure, Hr.
    unfold bind at 1. unfold print, modify, write_line, stdout_lines.
    rewrite IH. simpl. rewrite <- !app_assoc. reflexivity.
Qed.

(** Whatever the loop returns was extracted entry by entry. *)
Lemma for_book_in_inv (books : list ProductPod) (acc rs : list BookData)
    (out out' : list str) :
  for_book_in float books acc out = (out', inr rs) ->
  exists rs', rs = acc ++ rs' /\
    Forall2 (fun book r => extract float book = inr r) books rs'.
Proof.
  revert acc out. induction books as [|book books IH]; intros acc out H.
  - simpl in H. unfold ret in H. injection H as _ <-.
    exists []. rewrite app_nil_r. split; [reflexivity | constructor].
  - cbn [for_book_in] in H. unfold bind at 1 in H.
    rewrite scrape_book_pure in H.
    destruct (extract float book) as [e|r] eqn:Hr; [discriminate|].
    unfold bind at 1 in H. unfold print, modify in H.
    apply IH in H as (rs' & -> & HF).
    exists (r :: rs'). rewrite <- app_assoc. split; [reflexivity|].
    constructor; assumption.
Qed.

Lemma wait_first_visible (page : Page) (out : list str) :
  first_visible page ->
  wait_for_selector_product_pod page out = (out, inr tt).
Proof.
  intros (book & Hhd & Hv). destruct page as [|b page]; [discriminate|].
  simpl in Hhd. injection Hhd as ->. simpl. rewrite Hv. reflexivity.
Qed.

Lemma fetch_data_inv (self : BookScraper) (page : Page)
    (out out' : list str) (results : list BookData) :
  fetch_data float self page out = (out', inr results) ->
  Forall2 (fun book r => extract float book = inr r) page results.
Proof.
  unfold fetch_data, query_selector_all_product_pod.
  unfold bind at 1. unfold print, modify.
  unfold bind at 1.
  destruct (wait_for_selector_product_pod page _) as [out1 [e|[]]];
    [discriminate|].
  unfold bind at 1.
  destruct (for_book_in float page [] out1) as [out2 [e|rs]] eqn:Hloop;
    [discriminate|].
  unfold ret. intros H. injection H as _ <-.
  apply for_book_in_inv in Hloop as (rs' & -> & HF). exact HF.
Qed.

Lemma well_formed_all_extract (books : list ProductPod) :
  Forall (well_formed float) books ->
  exists rs, Forall2 (fun book r => extract float book = inr r) books rs.
Proof.
  induction books as [|book books IH]; intros H.
  - exists []. constructor.
  - inversion H as [|? ? Hb Hbs]; subst.
    destruct (IH Hbs) as [rs Hrs].
    apply extract_well_formed in Hb as [r Hr].
    exists (r :: rs). constructor; assumption.
Qed.

End ScraperProperties.

(** C1.  The code at the price text a browser renders for the site, the
    pound sign U+00A3 followed by "51.77": [replace] finds no U+00C2
    U+00A3 in it and leaves the sign, [float] rejects the text, and
    [fetch_data] raises [ValueError], although "51.77" reads as the float
    51.77. *)
Theorem price_pound_sign_not_stripped :
  inner_text (element (pound_sign ++ lit "51.77") []) = pound_sign ++ lit "51.77"
  /\ query_selector ".price_color" attic_pound
     = Some (element (pound_sign ++ lit "51.77") [])
  /\ float_of_str (lit "51.77") = Some (Finite false 5177 (-2))
  /\ replace mojibake_pound [] (pound_sign ++ lit "51.77")
     = pound_sign ++ lit "51.77"
  /\ fetch_data float_of_str toscrape [attic_pound] []
     = ([starting_line toscrape], inl ValueError).
Proof.
  repeat split; vm_compute; reflexivity.
Qed.

(** C3 (as amended).  On every page [fetch_data] returns from, an entry
    whose rating class attribute is made of exactly two space-separated
    tokens, the first being "star-rating", yields a record whose rating
    is the second token, unchanged. *)
Theorem rating_is_second_token (float : str -> option pyfloat)
    (self : BookScraper) (page : Page) (out out' : list str)
    (results : list BookData) (i : nat) (book : ProductPod)
    (rating_el : ElementHandle) (cls w : str) :
  fetch_data float self page out = (out', inr results) ->
  page !! i = Some book ->
  query_selector ".star-rating" book = Some rating_el ->
  get_attribute "class" rating_el = Some cls ->
  split space cls = [lit "star-rating"; w] ->
  exists r, results !! i = Some r /\ rating r = w
            /\ split space cls !! 1%nat = Some (rating r).
Proof.
  intros Hrun Hi Hel Hcls Htokens.
  apply fetch_data_inv in Hrun.
  destruct (Forall2_lookup_l _ _ _ _ _ Hrun Hi) as (r & Hr & Hex).
  exists r. split; [exact Hr|].
  apply extract_fields in Hex
    as (a & p & av & st & cls' & _ & _ & _ & Hst & Hc & _ & _ & _ & Hrating).
  rewrite Hel in Hst. injection Hst as <-.
  rewrite Hcls in Hc. injection Hc as <-.
  rewrite (replace_star_rating cls w Htokens) in Hrating.
  split; [exact Hrating|]. rewrite Htokens, Hrating. reflexivity.
Qed.

Lemma rating_is_second_token_witness :
  exists r, [attic_record] !! 0%nat = Some r /\ rating r = lit "Three"
            /\ split space (lit "star-rating Three") !! 1%nat = Some (rating r).
Proof.
  apply (rating_is_second_token float_of_str toscrape [attic_mojibake] []
           [starting_line toscrape; scraped_line attic_record]
           [attic_record] 0 attic_mojibake
           (element [] [("class"%string, lit "star-rating Three")])
           (lit "star-rating Three") (lit "Three")).
  - vm_compute. reflexivity.
  - reflexivity.
  - vm_compute. reflexivity.
  - vm_compute. reflexivity.
  - vm_compute. reflexivity.
Defined.

(** C3 (as stated) fails: with the class attribute "star-rating Three
    extra" the entry is well formed and its second space-separated token
    is "Three", but the record's rating is "Three extra": the code
    removes the text "star-rating " and keeps all the rest. *)
Lemma rating_is_not_second_token_of_three :
  well_formed float_of_str attic_three_tokens
  /\ query_selector ".star-rating" attic_three_tokens
     = Some (element [] [("class"%string, lit "star-rating Three extra")])
  /\ split space (lit "star-rating Three extra") !! 1%nat = Some (lit "Three")
  /\ fetch_data float_of_str toscrape [attic_three_tokens] []
     = ([starting_line toscrape; scraped_line attic_record],
        inr [ {| title := Some attic_title; price := Finite false 5177 (-2);
                 availability := lit "In stock";
                 rating := lit "Three extra" |} ]).
Proof.
  split; [|repeat split; vm_compute; reflexivity].
  apply extract_well_formed. eexists. vm_compute. reflexivity.
Qed.

(** C5 (as amended).  When the entries before [bad] are well formed and
    a step of the loop body raises [e] on [bad] ([AttributeError] for an
    absent element or class attribute, [ValueError] for a price text that
    is no number, the first failing step deciding), [fetch_data] raises
    [e]: it returns no sequence, and it has printed the lines of the
    entries before [bad] only, whatever comes after [bad]. *)
Theorem malformed_entry_aborts_page (float : str -> option pyfloat)
    (self : BookScraper) (good : list ProductPod) (bad : ProductPod)
    (rest : list ProductPod) (out : list str) (e : ScrapeError) :
  first_visible (good ++ bad :: rest) ->
  Forall (well_formed float) good ->
  raises float bad e ->
  exists rs,
    Forall2 (fun book r => extract float book = inr r) good rs /\
    fetch_data float self (good ++ bad :: rest) out
    = (out ++ starting_line self :: map scraped_line rs, inl e).
Proof.
  intros Hvis Hgood Hbad.
  destruct (well_formed_all_extract float good Hgood) as [rs Hrs].
  apply extract_raises in Hbad.
  exists rs. split; [exact Hrs|].
  unfold fetch_data, query_selector_all_product_pod.
  unfold bind at 1. unfold print, modify. unfold bind at 1.
  rewrite (wait_first_visible _ _ Hvis). unfold bind at 1.
  rewrite (for_book_in_abort float good bad rest rs [] _ e Hrs Hbad).
  unfold write_line, stdout_lines, starting_line.
  rewrite <- app_assoc. reflexivity.
Qed.

Lemma malformed_entry_aborts_page_witness :
  exists rs,
    Forall2 (fun book r => extract float_of_str book = inr r) [attic_mojibake] rs /\
    fetch_data float_of_str toscrape
      ([attic_mojibake] ++ pod_without_stock (lit "abc") :: [attic_mojibake]) []
    = ([] ++ starting_line toscrape :: map scraped_line rs, inl ValueError).
Proof.
  apply (malformed_entry_aborts_page float_of_str toscrape
           [attic_mojibake] (pod_without_stock (lit "abc")) [attic_mojibake] []
           ValueError).
  - exists attic_mojibake. split; reflexivity.
  - constructor; [|constructor].
    apply extract_well_formed. exists attic_record. vm_compute. reflexivity.
  - apply (raises_price_text float_of_str _
             (element [] [("title"%string, attic_title)])
             (element (lit "abc") []));
      vm_compute; reflexivity.
Defined.

(** C5 (as stated) fails: an entry whose anchor has no [title] attribute
    does not make the extraction fail; the record holds [None] as title. *)
Lemma missing_title_attribute_does_not_fail :
  query_selector "h3 a" attic_untitled = Some (element [] [])
  /\ get_attribute "title" (element [] []) = None
  /\ fetch_data float_of_str toscrape [attic_untitled] []
     = ([starting_line toscrape; lit "Scraped: None"],
        inr [ {| title := None; price := Finite false 5177 (-2);
                 availability := lit "In stock"; rating := lit "Three" |} ]).
Proof.
  repeat split; vm_compute; reflexivity.
Qed.

(** C6 (as amended).  On a page whose first entry is visible and whose
    entries are all well formed, [fetch_data] returns one record per
    entry, in document order: as many records as entries, the i-th being
    what the extraction steps give on the i-th entry. *)
Theorem fetch_data_one_record_per_entry (float : str -> option pyfloat)
    (self : BookScraper) (page : Page) (out : list str) :
  first_visible page ->
  Forall (well_formed float) page ->
  exists results,
    fetch_data float self page out
    = (out ++ starting_line self :: map scraped_line results, inr results)
    /\ length results = length page
    /\ Forall2 (fun book r => extract float book = inr r) page results.
Proof.
  intros Hvis Hwf.
  destruct (well_formed_all_extract float page Hwf) as [rs Hrs].
  exists rs. split; [|split].
  - unfold fetch_data, query_selector_all_product_pod.
    unfold bind at 1. unfold print, modify. unfold bind at 1.
    rewrite (wait_first_visible _ _ Hvis). unfold bind at 1.
    rewrite (for_book_in_all float page rs [] _ Hrs).
    unfold ret, write_line, stdout_lines, starting_line.
    rewrite <- app_assoc. reflexivity.
  - symmetry. exact (Forall2_length _ _ _ Hrs).
  - exact Hrs.
Qed.

Lemma fetch_data_one_record_per_entry_witness :
  exists results,
    fetch_data float_of_str toscrape [attic_mojibake; attic_untitled] []
    = ([] ++ starting_line toscrape :: map scraped_line results, inr results)
    /\ length results = length [attic_mojibake; attic_untitled]
    /\ Forall2 (fun book r => extract float_of_str book = inr r)
         [attic_mojibake; attic_untitled] results.
Proof.
  apply (fetch_data_one_record_per_entry float_of_str toscrape
           [attic_mojibake; attic_untitled] []).
  - exists attic_mojibake. split; reflexivity.
  - repeat constructor; apply extract_well_formed; eexists;
      vm_compute; reflexivity.
Defined.

(** C6 (as stated) fails: on a page without entries the wait for the
    selector times out, so [fetch_data] raises instead of returning the
    empty sequence. *)
Lemma fetch_data_no_entries_raises :
  fetch_data float_of_str toscrape [] []
  = ([starting_line toscrape], inl TimeoutError).
Proof.
  vm_compute. reflexivity.
Qed.

(** ** The store *)

Lemma world_eta (w : World) :
  {| databases := databases w; write_txn := write_txn w;
     stdout := stdout w; session := session w |} = w.
Proof. destruct w. reflexivity. Qed.

Lemma with_new_same (w : World) :
  closed (session w) = false -> with_new (new (session w)) w = w.
Proof.
  destruct w as [d wt o [b n i p t c]]. simpl. intros ->. reflexivity.
Qed.

Lemma with_txn_same (w : World) (db : Database) :
  write_txn w !! bind_ (session w) = Some db -> with_txn db w = w.
Proof.
  intros H. unfold with_txn, set_write_txn.
  rewrite insert_id by exact H. apply world_eta.
Qed.

(** A fault scheduled within the range is found. *)
Lemma first_fault_scheduled (g : nat -> option Exception) (k n j : nat) :
  (k <= j < k + n)%nat -> g j <> None -> first_fault g k n <> None.
Proof.
  revert k. induction n as [|n IH]; intros k Hj Hg; [lia|].
  simpl. destruct (g k) eqn:Hk; [discriminate|].
  apply IH; [|exact Hg].
  assert (j <> k) by (intros ->; congruence). lia.
Qed.

Lemma first_fault_none (g : nat -> option Exception) (k n : nat) :
  (forall j, (k <= j < k + n)%nat -> g j = None) -> first_fault g k n = None.
Proof.
  revert k. induction n as [|n IH]; intros k H; [reflexivity|].
  simpl. rewrite (H k) by lia. apply IH. intros j Hj. apply H. lia.
Qed.

Section StoreProperties.
Variable f : Faults.

(** The loop of [save_books] only touches the pending objects. *)
Lemma for_b_in_run (books : list BookData) (k : nat) (w : World) :
  closed (session w) = false ->
  exists pending,
    for_b_in f k books w
    = (with_new pending w,
       match first_fault (add_fault f) k (length books) with
       | Some e => inl e
       | None => inr tt
       end)
    /\ (first_fault (add_fault f) k (length books) = None ->
        pending = new (session w) ++ map record_of books).
Proof.
  revert k w. induction books as [|b books IH]; intros k w Hopen.
  - exists (new (session w)). simpl. unfold ret.
    rewrite with_new_same by exact Hopen. rewrite app_nil_r. auto.
  - cbn [for_b_in length first_fault]. unfold bind, session_add.
    destruct (add_fault f k) as [e|] eqn:Hk.
    + exists (new (session w)). unfold raise.
      rewrite with_new_same by exact Hopen.
      split; [reflexivity | discriminate].
    + unfold modify.
      destruct (IH (S k) (with_new (new (session w) ++ [record_of b]) w)
                  eq_refl)
        as (pending & Hrun & Hpending).
      exists pending. unfold with_new in Hrun at 1. simpl in Hrun.
      unfold record_of in Hrun at 1.
      rewrite Hrun. split; [reflexivity|].
      intros Hnone. rewrite (Hpending Hnone). simpl.
      rewrite <- app_assoc. reflexivity.
Qed.

(** The INSERTs of a flush do what [insert_many] says to the table of the
    transaction, and touch nothing else. *)
Lemma insert_all_run (records : list BookModel.t) (k : nat) (w : World)
    (db : Database) (t : Table) :
  write_txn w !! bind_ (session w) = Some db ->
  db !! BookModel.__tablename__ = Some t ->
  match insert_many f k records t with
  | inl e => exists db', insert_all f k records w = (with_txn db' w, inl e)
  | inr (t', ids) =>
      insert_all f k records w
      = (with_txn (<[BookModel.__tablename__ := t']> db) w, inr ids)
  end.
Proof.
  revert k w db t. induction records as [|r records IH]; intros k w db t Hw Ht.
  - simpl. unfold ret. rewrite (insert_id db _ _ Ht).
    rewrite (with_txn_same w db Hw). reflexivity.
  - assert (Hstep :
      insert_all f k (r :: records) w
      = match insert_fault f k with
        | Some e => (w, inl e)
        | None =>
            match store_row f k r t with
            | inl e => (w, inl e)
            | inr (t1, i) =>
                match insert_all f (S k) records
                        (with_txn (<[BookModel.__tablename__ := t1]> db) w) with
                | (w', inl e) => (w', inl e)
                | (w', inr ids) => (w', inr (i :: ids))
                end
            end
        end).
    { cbn [insert_all]. unfold bind, execute_insert.
      destruct (insert_fault f k); [reflexivity|]. rewrite Hw, Ht.
      destruct (store_row f k r t) as [e|[t1 i]]; [reflexivity|].
      unfold with_txn.
      destruct (insert_all f (S k) records _) as [w' [e|ids]]; reflexivity. }
    rewrite Hstep. clear Hstep. cbn [insert_many]. unfold insert_one.
    destruct (insert_fault f k) as [e|].
    { exists db. rewrite (with_txn_same w db Hw). reflexivity. }
    destruct (store_row f k r t) as [e|[t1 i]].
    { exists db. rewrite (with_txn_same w db Hw). reflexivity. }
    set (db1 := <[BookModel.__tablename__ := t1]> db).
    assert (Hw1 : write_txn (with_txn db1 w) !! bind_ (session (with_txn db1 w))
                  = Some db1) by apply lookup_insert_eq.
    assert (Ht1 : db1 !! BookModel.__tablename__ = Some t1)
      by apply lookup_insert_eq.
    specialize (IH (S k) (with_txn db1 w) db1 t1 Hw1 Ht1).
    destruct (insert_many f (S k) records t1) as [e|[t2 ids]].
    + destruct IH as [db' IH]. exists db'. rewrite IH.
      unfold with_txn, set_write_txn. simpl.
      rewrite insert_insert_eq. reflexivity.
    + rewrite IH. unfold with_txn, set_write_txn, db1. simpl.
      rewrite !insert_insert_eq. reflexivity.
Qed.

(** Without the table the first INSERT fails. *)
Lemma insert_all_no_table (r : BookModel.t) (records : list BookModel.t)
    (k : nat) (w : World) (db : Database) :
  write_txn w !! bind_ (session w) = Some db ->
  db !! BookModel.__tablename__ = None ->
  insert_all f k (r :: records) w
  = (w, inl (default (exception_for f NoSuchTable) (insert_fault f k))).
Proof.
  intros Hw Ht. cbn [insert_all]. unfold bind, execute_insert.
  destruct (insert_fault f k); [reflexivity|].
  rewrite Hw, Ht. reflexivity.
Qed.

(** The except clause and the finally clause after a failed try suite. *)
Lemma cleanup_after_error (e : Exception) (w : World) :
  try_finally
    (fun s => (print (error_line e);; rollback) s) close w
  = ({| databases := databases w; write_txn := released w;
        stdout := stdout w ++ [error_line e];
        session := {| bind_ := bind_ (session w); new := []; inserted := [];
                      persistent := []; in_transaction := false;
                      closed := true |} |},
     inr tt).
Proof.
  destruct w as [d wt o [b n i p [] c]]; reflexivity.
Qed.

(** The finally clause after a try suite that went through. *)
Lemma cleanup_after_success (w : World) :
  close w
  = ({| databases := databases w; write_txn := released w;
        stdout := stdout w;
        session := {| bind_ := bind_ (session w); new := []; inserted := [];
                      persistent := []; in_transaction := false;
                      closed := true |} |},
     inr tt).
Proof.
  destruct w as [d wt o [b n i p [] c]]; reflexivity.
Qed.

(** The try suite of [save_books], from the fresh session on. *)
Lemma try_suite_run (self : DatabaseManager) (books : list BookData)
    (w : World) :
  exists w2,
    (for_b_in f 0 books;; commit f;; print (success_line books))
      (set_session {| bind_ := engine self; new := []; inserted := [];
                      persistent := []; in_transaction := false;
                      closed := false |} w)
    = (w2, match save_fault f self books w with
           | Some e => inl e
           | None => inr tt
           end)
    /\ bind_ (session w2) = engine self
    /\ released w2 = write_txn w
    /\ databases w2 = match save_fault f self books w with
                      | Some _ => databases w
                      | None => saved_databases f self books w
                      end
    /\ stdout w2 = match save_fault f self books w with
                   | Some _ => stdout w
                   | None => stdout w ++ [success_line books]
                   end.
Proof.
  set (w1 := set_session _ w).
  destruct (for_b_in_run books 0 w1 eq_refl) as (pending & Hloop & Hpending).
  unfold bind at 1. rewrite Hloop. unfold save_fault.
  destruct (first_fault (add_fault f) 0 (length books)) as [e|].
  { (* a [session.add] raised *)
    eexists. split; [reflexivity|]. repeat split. }
  rewrite (Hpending eq_refl). clear Hloop Hpending pending.
  change (new (session w1)) with (@nil BookModel.t). rewrite app_nil_l.
  destruct books as [|b books].
  { (* nothing to write: no statement is sent *)
    eexists. split; [reflexivity|]. repeat split. }
  set (records := map record_of (b :: books)).
  unfold bind at 1. unfold commit. unfold bind at 1. unfold flush.
  unfold bind at 1. unfold get at 1.
  change (new (session (with_new records w1))) with records.
  change (in_transaction (session (with_new records w1))) with false.
  change records with (record_of b :: map record_of books) at 1.
  cbv iota. unfold bind at 1. unfold begin.
  change (bind_ (session (with_new records w1))) with (engine self).
  change (write_txn (with_new records w1)) with (write_txn w).
  destruct (write_txn w !! engine self) as [held|] eqn:Hlock.
  { (* another writer holds the database *)
    eexists. split; [reflexivity|]. repeat split. }
  change (database_at (engine self) (with_new records w1))
    with (database_at (engine self) w).
  set (db := database_at (engine self) w).
  set (w3 := set_session _ _).
  assert (Hw3 : write_txn w3 !! bind_ (session w3) = Some db)
    by apply lookup_insert_eq.
  unfold try_except at 1. unfold bind at 1.
  change (new (session w3)) with records.
  destruct (db !! BookModel.__tablename__) as [t|] eqn:Htable.
  2:{ (* no table: the first INSERT fails, the flush rolls back *)
    rewrite (insert_all_no_table _ _ 0 w3 db Hw3 Htable).
    eexists. split; [reflexivity|]. repeat split.
    unfold released. simpl. apply delete_insert_id. exact Hlock. }
  pose proof (insert_all_run records 0 w3 db t Hw3 Htable) as Hins.
  unfold saved_databases. fold db. rewrite Htable. fold records.
  change (record_of b :: map record_of books) with records.
  destruct (insert_many f 0 records t) as [e|[t' ids]].
  { (* an INSERT failed: the flush rolls back *)
    destruct Hins as [db' Hins]. rewrite Hins.
    eexists. split; [reflexivity|]. repeat split.
    unfold released. simpl.
    rewrite delete_insert_eq. apply delete_insert_id. exact Hlock. }
  rewrite Hins. clear Hins.
  set (db' := <[BookModel.__tablename__ := t']> db).
  unfold register_persistent at 1. unfold modify at 1.
  unfold bind at 1. unfold get at 1.
  set (w4 := set_session _ (with_txn db' w3)).
  change (in_transaction (session w4)) with true.
  change (bind_ (session w4)) with (engine self).
  assert (Hw4 : write_txn w4 !! engine self = Some db')
    by apply lookup_insert_eq.
  rewrite Hw4.
  destruct (commit_fault f) as [e|].
  { (* COMMIT failed: the transaction is still open *)
    eexists. split; [reflexivity|]. repeat split.
    unfold released. simpl.
    rewrite delete_insert_eq. apply delete_insert_id. exact Hlock. }
  (* the save went through *)
  eexists. split; [reflexivity|]. repeat split.
  unfold released. simpl.
  rewrite delete_insert_eq. apply delete_insert_id. exact Hlock.
Qed.

(** [save_books] always returns, in the world [after_save] describes. *)
Lemma save_books_run (self : DatabaseManager) (books : list BookData)
    (w : World) :
  save_books f self books w = (after_save f self books w, inr tt).
Proof.
  destruct (try_suite_run self books w)
    as (w2 & Hsuite & Hbind & Hrel & Hdb & Hout).
  unfold save_books. unfold bind at 1. unfold Session_call, modify.
  unfold try_finally, try_except.
  change (lit "Successfully saved " ++ str_of_nat (length books)
            ++ lit " books.") with (success_line books).
  rewrite Hsuite. unfold after_save, closed_session.
  destruct (save_fault f self books w) as [e|].
  - pose proof (cleanup_after_error e w2) as Hc.
    unfold try_finally in Hc.
    change (lit "Error saving to DB: " ++ exc_str e) with (error_line e).
    destruct ((print (error_line e);; rollback) w2) as [w5 r5].
    destruct (close w5) as [w6 [e6|[]]]; [discriminate|].
    injection Hc as -> ->.
    rewrite Hbind, Hrel, Hdb, Hout. reflexivity.
  - rewrite cleanup_after_success.
    rewrite Hbind, Hrel, Hdb, Hout. reflexivity.
Qed.

End StoreProperties.

(** An INSERT that went through. *)
Lemma store_row_inv (f : Faults) (k : nat) (record : BookModel.t)
    (t t' : Table) (i : Z) :
  store_row f k record t = inr (t', i) ->
  has_columns inserted_columns t = true
  /\ bindable record = true
  /\ new_rowid f k (rows t) = Some i
  /\ not_null_ok (columns t) record = true
  /\ t' = {| columns := columns t; rows := rows t ++ [stored_row i record] |}.
Proof.
  unfold store_row.
  destruct (has_columns inserted_columns t); [|discriminate].
  destruct (bindable record); [|discriminate].
  destruct (new_rowid f k (rows t)) as [j|]; [|discriminate].
  destruct (not_null_ok (columns t) record); [|discriminate].
  intros H. injection H as <- <-. auto.
Qed.

(** What the INSERTs of a flush leave in the table: the rows of before,
    followed by one row per object, with the rowid it was given. *)
Lemma insert_many_rows (f : Faults) (records : list BookModel.t) (k : nat)
    (t t' : Table) (ids : list Z) :
  insert_many f k records t = inr (t', ids) ->
  columns t' = columns t
  /\ rows t' = rows t ++ zip_with stored_row ids records
  /\ length ids = length records.
Proof.
  revert k t t' ids. induction records as [|r records IH]; intros k t t' ids H.
  - simpl in H. injection H as <- <-. simpl. rewrite app_nil_r. auto.
  - cbn [insert_many] in H. unfold insert_one in H.
    destruct (insert_fault f k); [discriminate|].
    destruct (store_row f k r t) as [e|[t1 i]] eqn:Hrow; [discriminate|].
    apply store_row_inv in Hrow as (_ & _ & _ & _ & ->).
    destruct (insert_many f (S k) records _) as [e|[t2 ids2]] eqn:Hrest;
      [discriminate|].
    injection H as <- <-.
    apply IH in Hrest as (Hcols & Hrows & Hlen). simpl in *.
    rewrite Hcols, Hrows, <- app_assoc, Hlen. auto.
Qed.

Lemma stored_fields_zip (books : list BookData) (ids : list Z) :
  length ids = length books ->
  Forall2 stored_fields books (zip_with stored_row ids (map record_of books)).
Proof.
  revert ids. induction books as [|b books IH]; intros [|i ids] Hlen;
    try discriminate; simpl; constructor.
  - repeat split.
  - apply IH. simpl in Hlen. lia.
Qed.

(** The rows a save that went through appends. *)
Lemma insert_many_fields (f : Faults) (books : list BookData) (k : nat)
    (t t' : Table) (ids : list Z) :
  insert_many f k (map record_of books) t = inr (t', ids) ->
  exists news,
    rows t' = rows t ++ news
    /\ columns t' = columns t
    /\ Forall2 stored_fields books news.
Proof.
  intros H. apply insert_many_rows in H as (Hcols & Hrows & Hlen).
  eexists. split; [exact Hrows|]. split; [exact Hcols|].
  apply stored_fields_zip. rewrite Hlen. apply length_map.
Qed.

(** A scan delivers the rows of the table, each once. *)
Lemma place_permutation (r : BookModel.t) (rs : list BookModel.t) :
  place r rs ≡ₚ r :: rs.
Proof.
  induction rs as [|x rs IH]; simpl; [reflexivity|].
  destruct (rowid x <=? rowid r)%Z; [|reflexivity].
  rewrite IH. apply Permutation_swap.
Qed.

Lemma in_rowid_order_permutation (rs : list BookModel.t) :
  in_rowid_order rs ≡ₚ rs.
Proof.
  unfold in_rowid_order.
  assert (H : forall acc, foldl (fun acc r => place r acc) acc rs ≡ₚ acc ++ rs).
  { induction rs as [|r rs IH]; intros acc; simpl.
    - rewrite app_nil_r. reflexivity.
    - rewrite IH, place_permutation. apply Permutation_middle. }
  apply (H []).
Qed.

Lemma error_line_not_success (e : Exception) (books : list BookData) :
  error_line e <> success_line books.
Proof. unfold error_line, success_line. simpl. discriminate. Qed.

(** The success line is printed exactly when nothing raised. *)
Lemma success_line_printed (f : Faults) (self : DatabaseManager)
    (books : list BookData) (w : World) :
  stdout (fst (save_books f self books w)) = stdout w ++ [success_line books]
  <-> save_fault f self books w = None.
Proof.
  rewrite save_books_run. unfold after_save. simpl.
  destruct (save_fault f self books w) as [e|]; simpl; split; intros H.
  - apply app_inv_head in H.
    pose proof (f_equal (fun l => default [] (head l)) H) as H'.
    exfalso. exact (error_line_not_success e books H').
  - discriminate.
  - reflexivity.
  - reflexivity.
Qed.

(** An INSERT fault scheduled within a flush stops it. *)
Lemma insert_many_scheduled (f : Faults) (records : list BookModel.t)
    (k j : nat) (t : Table) :
  (k <= j < k + length records)%nat ->
  insert_fault f j <> None ->
  exists e, insert_many f k records t = inl e.
Proof.
  revert k t. induction records as [|r records IH]; intros k t Hj Hf.
  - simpl in Hj. lia.
  - cbn [insert_many]. unfold insert_one.
    destruct (insert_fault f k) as [e|] eqn:Hk; [eauto|].
    destruct (store_row f k r t) as [e|[t1 i]]; [eauto|].
    assert (j <> k) by (intros ->; congruence).
    destruct (IH (S k) t1) as [e He]; [simpl in Hj; lia | exact Hf |].
    rewrite He. eauto.
Qed.

(** A fault scheduled for a record of the batch stops the save. *)
Lemma scheduled_fault_is_hit (f : Faults) (self : DatabaseManager)
    (books : list BookData) (w : World) (k : nat) :
  (k < length books)%nat ->
  add_fault f k <> None \/ insert_fault f k <> None ->
  save_fault f self books w <> None.
Proof.
  intros Hk Hfault. unfold save_fault.
  destruct (first_fault (add_fault f) 0 (length books)) eqn:Hadd;
    [discriminate|].
  destruct books as [|b books]; [simpl in Hk; lia|].
  destruct (write_txn w !! engine self); [discriminate|].
  destruct (database_at (engine self) w !! BookModel.__tablename__) as [t|];
    [|discriminate].
  destruct Hfault as [Hf|Hf].
  - exfalso.
    apply (first_fault_scheduled (add_fault f) 0 (length (b :: books)) k);
      [lia | exact Hf | exact Hadd].
  - destruct (insert_many_scheduled f (map record_of (b :: books)) 0 k t)
      as [e He]; [rewrite length_map; lia | exact Hf |].
    rewrite He. discriminate.
Qed.

(** The table a reader finds after [save_books]. *)
Lemma table_after_save (f : Faults) (self : DatabaseManager)
    (books : list BookData) (w : World) (t : Table) :
  database_at (engine self) w !! BookModel.__tablename__ = Some t ->
  exists t',
    database_at (engine self) (fst (save_books f self books w))
      !! BookModel.__tablename__ = Some t'
    /\ columns t' = columns t
    /\ (save_fault f self books w <> None -> t' = t)
    /\ (save_fault f self books w = None ->
        exists news, rows t' = rows t ++ news
                     /\ Forall2 stored_fields books news).
Proof.
  intros Ht. rewrite save_books_run. unfold after_save, save_fault. simpl.
  destruct (first_fault (add_fault f) 0 (length books)) as [e|].
  { exists t. repeat split; [exact Ht | discriminate]. }
  unfold saved_databases. rewrite Ht.
  destruct books as [|b books].
  { exists t. repeat split; [exact Ht|]. intros _. exists [].
    rewrite app_nil_r. split; [reflexivity | constructor]. }
  destruct (write_txn w !! engine self).
  { exists t. repeat split; [exact Ht | discriminate]. }
  destruct (insert_many f 0 (map record_of (b :: books)) t)
    as [e|[t' ids]] eqn:Hins.
  { exists t. repeat split; [exact Ht | discriminate]. }
  destruct (insert_many_fields f _ _ _ _ _ Hins) as (news & Hrows & Hcols & HF).
  destruct (commit_fault f).
  { exists t. repeat split; [exact Ht | discriminate]. }
  exists t'. split.
  { unfold database_at at 1. simpl.
    rewrite lookup_insert_eq. simpl. apply lookup_insert_eq. }
  split; [exact Hcols|]. split; [congruence|].
  intros _. exists news. split; assumption.
Qed.

Lemma query_all_table (self : DatabaseManager) (w : World)
    (old : list BookModel.t) :
  query_all self w = Some old ->
  exists t, database_at (engine self) w !! BookModel.__tablename__ = Some t
            /\ has_columns selected_columns t = true
            /\ old = in_rowid_order (rows t).
Proof.
  unfold query_all. intros H.
  destruct (database_at (engine self) w !! BookModel.__tablename__) as [t|];
    [|discriminate].
  cbn [mbind option_bind] in H.
  destruct (has_columns selected_columns t) eqn:Hc; [|discriminate].
  injection H as <-. exists t. auto.
Qed.

Lemma has_columns_same (names : list string) (t t' : Table) :
  columns t' = columns t -> has_columns names t' = has_columns names t.
Proof. unfold has_columns, column_names. intros ->. reflexivity. Qed.

Lemma bind_real_not_nan (x : pyfloat) :
  x <> NaN -> bind_real (Some x) = Some x.
Proof. destruct x; [reflexivity | reflexivity | congruence]. Qed.

Lemma stored_fields_same (books : list BookData) (news : list BookModel.t) :
  Forall (fun b => price b <> NaN) books ->
  Forall2 stored_fields books news ->
  Forall2 same_fields books news.
Proof.
  intros Hnan HF. induction HF as [|b r books news Hbr _ IH]; [constructor|].
  inversion Hnan as [|? ? Hb Hbs]; subst.
  constructor; [|apply IH; exact Hbs].
  destruct Hbr as (Ht & Hp & Ha & Hr).
  rewrite (bind_real_not_nan _ Hb) in Hp. repeat split; assumption.
Qed.

(** C7 (as amended).  On a [books] table with the columns of
    [BookModel], after a save that printed its success line, of records
    none of which has the price NaN, reading the table back gives the
    rows that were there and one more row per record of the batch, each
    with the title, price, availability and rating of its record, in some
    order; on a table that was empty these are exactly the N rows of the
    batch. *)
Theorem save_then_read_back (f : Faults) (self : DatabaseManager)
    (books : list BookData) (w : World) (old : list BookModel.t) :
  model_table self w ->
  query_all self w = Some old ->
  stdout (fst (save_books f self books w)) = stdout w ++ [success_line books] ->
  Forall (fun b => price b <> NaN) books ->
  exists rs news,
    query_all self (fst (save_books f self books w)) = Some rs
    /\ rs ≡ₚ old ++ news
    /\ length news = length books
    /\ Forall2 same_fields books news.
Proof.
  intros _ Hq Hok Hnan. apply success_line_printed in Hok.
  apply query_all_table in Hq as (t & Ht & Hcols & ->).
  destruct (table_after_save f self books w t Ht)
    as (t' & Ht' & Hcols' & _ & Hrows).
  destruct (Hrows Hok) as (news & Hnews & HF).
  exists (in_rowid_order (rows t')), news.
  split; [|split; [|split]].
  - unfold query_all. rewrite Ht'. cbn [mbind option_bind].
    rewrite (has_columns_same _ _ _ Hcols'), Hcols. reflexivity.
  - rewrite !in_rowid_order_permutation, Hnews. reflexivity.
  - symmetry. exact (Forall2_length _ _ _ HF).
  - exact (stored_fields_same _ _ Hnan HF).
Qed.

Lemma save_then_read_back_witness :
  exists rs news,
    query_all manager
      (fst (save_books no_faults manager [attic_record; other_record]
              ready_world))
    = Some rs
    /\ rs ≡ₚ [] ++ news
    /\ length news = length [attic_record; other_record]
    /\ Forall2 same_fields [attic_record; other_record] news.
Proof.
  apply (save_then_read_back no_faults manager [attic_record; other_record]
           ready_world []).
  - exists {| columns := BookModel.__table__; rows := [] |}.
    split; vm_compute; reflexivity.
  - vm_compute. reflexivity.
  - vm_compute. reflexivity.
  - repeat constructor; discriminate.
Defined.

(** C7 (as stated) fails: a record whose price is NaN is saved into the
    table [DatabaseManager] created, the success line is printed, and the
    row read back has no price: SQLite keeps NaN as NULL. *)
Lemma nan_price_is_read_back_as_null :
  price nan_record = NaN
  /\ stdout (fst (save_books no_faults manager [nan_record] ready_world))
     = stdout ready_world ++ [success_line [nan_record]]
  /\ query_all manager
       (fst (save_books no_faults manager [nan_record] ready_world))
     = Some [ {| BookModel.id := Some 1%Z;
                 BookModel.title := title nan_record;
                 BookModel.price := None;
                 BookModel.availability := availability nan_record;
                 BookModel.rating := rating nan_record |} ].
Proof.
  repeat split; vm_compute; reflexivity.
Qed.

(** C4.  A fault at the k-th record of a batch (its [session.add] or its
    INSERT) leaves the committed content, hence what a reader sees, as it
    was.  In every case the committed content after [save_books] is
    either unchanged or the old one with one row per record of the whole
    batch appended to the table. *)
Theorem save_books_atomic (f : Faults) (self : DatabaseManager)
    (books : list BookData) (w : World) :
  (forall k, (k < length books)%nat ->
     add_fault f k <> None \/ insert_fault f k <> None ->
     databases (fst (save_books f self books w)) = databases w
     /\ query_all self (fst (save_books f self books w)) = query_all self w)
  /\ (databases (fst (save_books f self books w)) = databases w
      \/ exists t news,
           database_at (engine self) w !! BookModel.__tablename__ = Some t
           /\ Forall2 stored_fields books news
           /\ databases (fst (save_books f self books w))
              = <[engine self :=
                    <[BookModel.__tablename__ :=
                        {| columns := columns t; rows := rows t ++ news |}]>
                      (database_at (engine self) w)]> (databases w)).
Proof.
  rewrite save_books_run. unfold after_save. split.
  - intros k Hk Hfault.
    pose proof (scheduled_fault_is_hit f self books w k Hk Hfault) as Hhit.
    destruct (save_fault f self books w); [|congruence].
    split; reflexivity.
  - destruct (save_fault f self books w); [left; reflexivity|].
    simpl. unfold saved_databases.
    destruct books as [|b books]; [left; reflexivity|].
    destruct (database_at (engine self) w !! BookModel.__tablename__)
      as [t|]; [|left; reflexivity].
    destruct (insert_many f 0 (map record_of (b :: books)) t)
      as [e|[t' ids]] eqn:Hins; [left; reflexivity|].
    right. destruct (insert_many_fields f _ _ _ _ _ Hins)
      as (news & Hrows & Hcols & HF).
    exists t, news. split; [reflexivity|]. split; [exact HF|].
    rewrite <- Hrows, <- Hcols. destruct t'. reflexivity.
Qed.

Lemma save_books_atomic_witness :
  databases (fst (save_books (insert_fails_at 1) manager
                    [attic_record; other_record] ready_world))
  = databases ready_world
  /\ query_all manager
       (fst (save_books (insert_fails_at 1) manager
               [attic_record; other_record] ready_world))
     = query_all manager ready_world.
Proof.
  apply (proj1 (save_books_atomic (insert_fails_at 1) manager
                  [attic_record; other_record] ready_world) 1%nat).
  - simpl. lia.
  - right. simpl. discriminate.
Defined.

(** C2 (as amended).  When the try suite of [save_books] runs into an
    exception [e] (which takes a batch with records), nothing of the batch
    is committed and no transaction stays open, the fault is printed on
    the standard output, and the call returns normally; a later save on
    the same handle meets the same conditions and commits the same
    content as it would have before. *)
Theorem save_books_fault_rolled_back_and_printed (f : Faults)
    (self : DatabaseManager) (books : list BookData) (w : World)
    (e : Exception) :
  save_fault f self books w = Some e ->
  books <> []
  /\ save_books f self books w
     = ({| databases := databases w; write_txn := write_txn w;
           stdout := stdout w ++ [error_line e];
           session := closed_session self |}, inr tt)
  /\ forall (f2 : Faults) (books2 : list BookData),
       save_fault f2 self books2 (fst (save_books f self books w))
       = save_fault f2 self books2 w
       /\ databases (fst (save_books f2 self books2
                            (fst (save_books f self books w))))
          = databases (fst (save_books f2 self books2 w)).
Proof.
  intros Hfault. split; [|split].
  - intros ->. discriminate.
  - rewrite save_books_run. unfold after_save. rewrite Hfault. reflexivity.
  - intros f2 books2. rewrite !save_books_run. cbn [fst].
    assert (Hw' : after_save f self books w
                  = {| databases := databases w; write_txn := write_txn w;
                       stdout := stdout w ++ [error_line e];
                       session := closed_session self |})
      by (unfold after_save; rewrite Hfault; reflexivity).
    rewrite Hw'. split; [reflexivity|].
    unfold after_save.
    match goal with
    | |- context [save_fault f2 self books2 ?w'] =>
        change (save_fault f2 self books2 w')
          with (save_fault f2 self books2 w)
    end.
    destruct (save_fault f2 self books2 w); reflexivity.
Qed.

Lemma save_books_fault_rolled_back_and_printed_witness :
  [attic_record] <> []
  /\ save_books commit_fails manager [attic_record] ready_world
     = ({| databases := databases ready_world;
           write_txn := write_txn ready_world;
           stdout := stdout ready_world ++ [error_line disk_full];
           session := closed_session manager |}, inr tt)
  /\ forall (f2 : Faults) (books2 : list BookData),
       save_fault f2 manager books2
         (fst (save_books commit_fails manager [attic_record] ready_world))
       = save_fault f2 manager books2 ready_world
       /\ databases (fst (save_books f2 manager books2
                            (fst (save_books commit_fails manager
                                    [attic_record] ready_world))))
          = databases (fst (save_books f2 manager books2 ready_world)).
Proof.
  apply (save_books_fault_rolled_back_and_printed commit_fails manager
           [attic_record] ready_world disk_full).
  vm_compute. reflexivity.
Defined.

(** C2 (as stated) fails: with a failing INSERT the call returns to its
    caller exactly what it returns when the save goes through; the fault
    only shows on the standard output. *)
Lemma save_books_fault_not_reported :
  save_fault (insert_fails_at 0) manager [attic_record] ready_world
  = Some disk_full
  /\ snd (save_books (insert_fails_at 0) manager [attic_record] ready_world)
     = inr tt
  /\ save_fault no_faults manager [attic_record] ready_world = None
  /\ snd (save_books no_faults manager [attic_record] ready_world) = inr tt.
Proof.
  repeat split; vm_compute; reflexivity.
Qed.

(** C9.  [save_books] on an empty list sends no statement: the committed
    content and the open transactions are as before, the success line for
    0 books is printed, and the call returns normally, whatever faults the
    environment holds. *)
Theorem save_books_empty (f : Faults) (self : DatabaseManager) (w : World) :
  save_books f self [] w
  = ({| databases := databases w; write_txn := write_txn w;
        stdout := stdout w ++ [lit "Successfully saved 0 books."];
        session := closed_session self |}, inr tt).
Proof.
  rewrite save_books_run. reflexivity.
Qed.

(** C10.  Whatever the batch and the faults of [session.add], INSERT and
    COMMIT, [save_books] returns normally and leaves its session closed:
    [close] was the last call on it, no object is left in it, pending or
    persistent, and it holds no transaction; the open transactions of the
    world are as they were.  So it is after any later call on the
    handle. *)
Theorem save_books_returns_and_closes (f : Faults) (self : DatabaseManager)
    (books : list BookData) (w : World) :
  exists w',
    save_books f self books w = (w', inr tt)
    /\ session w' = closed_session self
    /\ closed (session w') = true
    /\ new (session w') = [] /\ inserted (session w') = []
    /\ persistent (session w') = []
    /\ in_transaction (session w') = false
    /\ write_txn w' = write_txn w
    /\ forall (f2 : Faults) (books2 : list BookData),
         snd (save_books f2 self books2 w') = inr tt
         /\ session (fst (save_books f2 self books2 w')) = closed_session self.
Proof.
  exists (after_save f self books w).
  split; [apply save_books_run|].
  assert (Hs : session (after_save f self books w) = closed_session self)
    by (unfold after_save; destruct (save_fault f self books w); reflexivity).
  rewrite Hs. do 6 (split; [reflexivity|]). split.
  - unfold after_save. destruct (save_fault f self books w); reflexivity.
  - intros f2 books2. rewrite save_books_run. split; [reflexivity|].
    unfold after_save. cbn [fst].
    destruct (save_fault f2 self books2 _); reflexivity.
Qed.

Lemma create_all_metadata (db : Database) :
  create_all metadata db
  = match db !! BookModel.__tablename__ with
    | Some _ => db
    | None =>
        <[BookModel.__tablename__ :=
            {| columns := BookModel.__table__; rows := [] |}]> db
    end.
Proof. reflexivity. Qed.

Lemma database_at_table (target : Location) (w : World) (t : Table) :
  database_at target w !! BookModel.__tablename__ = Some t ->
  databases w !! target = Some (database_at target w).
Proof.
  unfold database_at. destruct (databases w !! target); [reflexivity|].
  simpl. rewrite lookup_empty. discriminate.
Qed.

(** [create_all] on a database that has the table changes nothing. *)
Lemma metadata_create_all_present (f : Faults) (target : Location) (w : World)
    (t : Table) :
  database_at target w !! BookModel.__tablename__ = Some t ->
  metadata_create_all f target w = (w, inr tt).
Proof.
  intros Ht. unfold metadata_create_all. rewrite Ht, create_all_metadata, Ht.
  rewrite insert_id by (eapply database_at_table; exact Ht).
  unfold set_databases. rewrite world_eta. reflexivity.
Qed.

(** [create_all] is idempotent. *)
Lemma metadata_create_all_twice (f : Faults) (target : Location) (w : World) :
  metadata_create_all f target (fst (metadata_create_all f target w))
  = metadata_create_all f target w.
Proof.
  destruct (database_at target w !! BookModel.__tablename__) as [t|] eqn:Ht.
  - rewrite (metadata_create_all_present f target w t Ht). simpl.
    exact (metadata_create_all_present f target w t Ht).
  - unfold metadata_create_all at 2 3. rewrite Ht.
    destruct (write_txn w !! target) as [held|] eqn:Hlock; cbn [fst].
    + unfold metadata_create_all. rewrite Ht, Hlock. reflexivity.
    + rewrite create_all_metadata, Ht.
      set (db' := <[BookModel.__tablename__ := _]> _).
      assert (Hat : database_at target
                      (set_databases (<[target := db']> (databases w)) w)
                    = db').
      { unfold database_at. simpl. rewrite lookup_insert_eq. reflexivity. }
      assert (Hnew : db' !! BookModel.__tablename__
                     = Some {| columns := BookModel.__table__; rows := [] |})
        by apply lookup_insert_eq.
      unfold metadata_create_all. rewrite Hat, Hnew, create_all_metadata, Hnew.
      unfold set_databases. simpl. rewrite insert_insert_eq. reflexivity.
Qed.

(** [DatabaseManager.__init__] on a connection string that names a file. *)
Lemma DatabaseManager_init_file (resolve : string -> option Url) (f : Faults)
    (connection_string file : string) (w : World) :
  resolve connection_string = Some (FileUrl file) ->
  DatabaseManager_init resolve f connection_string w
  = match metadata_create_all f (OnDisk file) w with
    | (w', inr _) => (w', inr {| engine := OnDisk file |})
    | (w', inl e) => (w', inl e)
    end.
Proof.
  intros Hfile. unfold DatabaseManager_init, create_engine, bind.
  rewrite Hfile.
  destruct (metadata_create_all f (OnDisk file) w) as [w' [e|[]]]; reflexivity.
Qed.

(** C8 (as amended).  For connection strings that name a database file:
    constructing the store a second time against the same file, under
    the same or another spelling, changes nothing and gives the same
    handle.  A [books] table that is there is left as it is, columns and
    rows, and so is the whole world; the table is created, empty and with
    the columns of [BookModel], only when it is absent. *)
Theorem initialize_idempotent (resolve : string -> option Url) (f : Faults)
    (connection_string again file : string) (w : World) :
  resolve connection_string = Some (FileUrl file) ->
  resolve again = Some (FileUrl file) ->
  DatabaseManager_init resolve f again
    (fst (DatabaseManager_init resolve f connection_string w))
  = DatabaseManager_init resolve f connection_string w
  /\ (forall t,
        database_at (OnDisk file) w !! BookModel.__tablename__ = Some t ->
        DatabaseManager_init resolve f connection_string w
        = (w, inr {| engine := OnDisk file |}))
  /\ (database_at (OnDisk file) w !! BookModel.__tablename__ = None ->
      write_txn w !! OnDisk file = None ->
      database_at (OnDisk file)
        (fst (DatabaseManager_init resolve f connection_string w))
      = <[BookModel.__tablename__ :=
            {| columns := BookModel.__table__; rows := [] |}]>
          (database_at (OnDisk file) w)).
Proof.
  intros Hfile Hagain.
  rewrite (DatabaseManager_init_file resolve f again file _ Hagain).
  rewrite (DatabaseManager_init_file resolve f connection_string file w Hfile).
  split; [|split].
  - pose proof (metadata_create_all_twice f (OnDisk file) w) as Htwice.
    destruct (metadata_create_all f (OnDisk file) w) as [w' [e|[]]];
      cbn [fst] in *; rewrite Htwice; reflexivity.
  - intros t Ht. rewrite (metadata_create_all_present f _ w t Ht). reflexivity.
  - intros Ht Hlock. unfold metadata_create_all. rewrite Ht, Hlock.
    rewrite create_all_metadata, Ht. cbn [fst].
    unfold database_at at 1. simpl. rewrite lookup_insert_eq. reflexivity.
Qed.

Lemma initialize_idempotent_witness :
  DatabaseManager_init resolve_sqlite no_faults books_db
    (fst (save_books no_faults manager [attic_record] ready_world))
  = (fst (save_books no_faults manager [attic_record] ready_world),
     inr {| engine := OnDisk "books.db" |}).
Proof.
  apply (proj1 (proj2 (initialize_idempotent resolve_sqlite no_faults
           books_db books_db "books.db"
           (fst (save_books no_faults manager [attic_record] ready_world))
           eq_refl eq_refl))
           {| columns := BookModel.__table__;
              rows := [ {| BookModel.id := Some 1%Z;
                           BookModel.title := Some attic_title;
                           BookModel.price := Some (Finite false 5177 (-2));
                           BookModel.availability := lit "In stock";
                           BookModel.rating := lit "Three" |} ] |}).
  vm_compute. reflexivity.
Defined.

(** C8 (as stated) fails on the in-memory URL, the one of the test
    module: every construction gets a database of its own.  After a save
    through the first handle, constructing again creates a second [books]
    table, and the second handle finds it empty while the row is there
    for the first. *)
Lemma initialize_in_memory_is_not_idempotent :
  DatabaseManager_init resolve_sqlite no_faults memory_db empty_world
  = (fst (DatabaseManager_init resolve_sqlite no_faults memory_db empty_world),
     inr {| engine := InMemory 0 |})
  /\ snd (DatabaseManager_init resolve_sqlite no_faults memory_db
            (fst (save_books no_faults {| engine := InMemory 0 |}
                    [attic_record]
                    (fst (DatabaseManager_init resolve_sqlite no_faults
                            memory_db empty_world)))))
     = inr {| engine := InMemory 1 |}
  /\ query_all {| engine := InMemory 0 |}
       (fst (DatabaseManager_init resolve_sqlite no_faults memory_db
               (fst (save_books no_faults {| engine := InMemory 0 |}
                       [attic_record]
                       (fst (DatabaseManager_init resolve_sqlite no_faults
                               memory_db empty_world))))))
     = Some [ {| BookModel.id := Some 1%Z;
                 BookModel.title := Some attic_title;
                 BookModel.price := Some (Finite false 5177 (-2));
                 BookModel.availability := lit "In stock";
                 BookModel.rating := lit "Three" |} ]
  /\ query_all {| engine := InMemory 1 |}
       (fst (DatabaseManager_init resolve_sqlite no_faults memory_db
               (fst (save_books no_faults {| engine := InMemory 0 |}
                       [attic_record]
                       (fst (DatabaseManager_init resolve_sqlite no_faults
                               memory_db empty_world))))))
     = Some [].
Proof.
  repeat split; vm_compute; reflexivity.
Qed.
(** * Further properties *)

(** ** The scraper beyond the claims *)

Lemma lstrip_head (s : str) (c : char) :
  head (lstrip s) = Some c -> isspace c = false.
Proof.
  induction s as [|a s IH]; simpl; [discriminate|].
  destruct (isspace a) eqn:Ha; [exact IH|].
  simpl. intros H. injection H as <-. exact Ha.
Qed.

(** A last character that is no whitespace stops [lstrip]. *)
Lemma lstrip_keeps_last (l : str) (c : char) :
  isspace c = false -> exists l', lstrip (l ++ [c]) = l' ++ [c].
Proof.
  intros Hc. induction l as [|a l [l' IH]]; simpl.
  - rewrite Hc. exists []. reflexivity.
  - destruct (isspace a).
    + exists l'. exact IH.
    + exists (a :: l). reflexivity.
Qed.

Lemma last_rev_head (l : str) : last (rev l) = head l.
Proof.
  destruct l as [|a l]; [reflexivity|].
  simpl. apply last_snoc.
Qed.

Lemma strip_no_surrounding_space (s : str) :
  no_surrounding_space (strip s).
Proof.
  unfold no_surrounding_space, strip, rstrip. split; intros c H.
  - destruct (lstrip s) as [|a y] eqn:Hy; [discriminate|].
    assert (Ha : isspace a = false)
      by (apply (lstrip_head s); rewrite Hy; reflexivity).
    simpl in H.
    destruct (lstrip_keeps_last (rev y) a Ha) as [l' Hl'].
    rewrite Hl', rev_unit in H. simpl in H. injection H as <-. exact Ha.
  - rewrite last_rev_head in H. exact (lstrip_head _ _ H).
Qed.

(** X1.  [fetch_data] never returns an empty list: whenever it returns,
    the list has as many records as the page has entries, at least one. *)
Theorem fetch_data_never_returns_empty (float : str -> option pyfloat)
    (self : BookScraper) (page : Page) (out out' : list str)
    (results : list BookData) :
  fetch_data float self page out = (out', inr results) ->
  results <> [] /\ length results = length page.
Proof.
  intros Hrun.
  assert (Hlen : length results = length page)
    by (symmetry; exact (Forall2_length _ _ _ (fetch_data_inv _ _ _ _ _ _ Hrun))).
  split; [|exact Hlen].
  destruct page as [|book page]; [discriminate Hrun|].
  intros ->. discriminate Hlen.
Qed.

Lemma fetch_data_never_returns_empty_witness :
  [attic_record] <> [] /\ length [attic_record] = length [attic_mojibake].
Proof.
  apply (fetch_data_never_returns_empty float_of_str toscrape [attic_mojibake]
           [] [starting_line toscrape; scraped_line attic_record]).
  vm_compute. reflexivity.
Defined.

(** X2.  The availability of every returned record is the text of the
    entry's stock element without the whitespace around it: it neither
    starts nor ends with a whitespace character. *)
Theorem availability_is_stripped (float : str -> option pyfloat)
    (self : BookScraper) (page : Page) (out out' : list str)
    (results : list BookData) (i : nat) (book : ProductPod)
    (avail_el : ElementHandle) :
  fetch_data float self page out = (out', inr results) ->
  page !! i = Some book ->
  query_selector ".instock.availability" book = Some avail_el ->
  exists r, results !! i = Some r
            /\ availability r = strip (inner_text avail_el)
            /\ no_surrounding_space (availability r).
Proof.
  intros Hrun Hi Hel.
  apply fetch_data_inv in Hrun.
  destruct (Forall2_lookup_l _ _ _ _ _ Hrun Hi) as (r & Hr & Hex).
  exists r. split; [exact Hr|].
  apply extract_fields in Hex
    as (a & p & av & st & cls & _ & _ & Hav & _ & _ & _ & _ & Havail & _).
  rewrite Hel in Hav. injection Hav as <-.
  rewrite Havail. split; [reflexivity | apply strip_no_surrounding_space].
Qed.

Lemma availability_is_stripped_witness :
  exists r, [attic_record] !! 0%nat = Some r
            /\ availability r = strip (inner_text (element (lit "  In stock ") []))
            /\ no_surrounding_space (availability r).
Proof.
  apply (availability_is_stripped float_of_str toscrape [attic_mojibake] []
           [starting_line toscrape; scraped_line attic_record]
           [attic_record] 0 attic_mojibake (element (lit "  In stock ") [])).
  - vm_compute. reflexivity.
  - reflexivity.
  - vm_compute. reflexivity.
Defined.

(** X3.  A price text without the character U+00C2 goes to [float] as it
    is: the record's price is [float] of the whole text, so a text with
    no currency prefix at all is read too. *)
Theorem price_text_without_mojibake (float : str -> option pyfloat)
    (self : BookScraper) (page : Page) (out out' : list str)
    (results : list BookData) (i : nat) (book : ProductPod)
    (price_el : ElementHandle) :
  fetch_data float self page out = (out', inr results) ->
  page !! i = Some book ->
  query_selector ".price_color" book = Some price_el ->
  194 ∉ inner_text price_el ->
  exists r, results !! i = Some r
            /\ float (inner_text price_el) = Some (price r).
Proof.
  intros Hrun Hi Hel Habsent.
  apply fetch_data_inv in Hrun.
  destruct (Forall2_lookup_l _ _ _ _ _ Hrun Hi) as (r & Hr & Hex).
  exists r. split; [exact Hr|].
  apply extract_fields in Hex
    as (a & p & av & st & cls & _ & Hp & _ & _ & _ & _ & Hprice & _).
  rewrite Hel in Hp. injection Hp as <-.
  unfold replace, mojibake_pound in Hprice.
  rewrite (replace_from_absent [194; 163] [] _ 194) in Hprice;
    [exact Hprice | left | exact Habsent].
Qed.

Lemma price_text_without_mojibake_witness :
  exists r, [attic_record] !! 0%nat = Some r
            /\ float_of_str (inner_text (element (lit "51.77") []))
               = Some (price r).
Proof.
  apply (price_text_without_mojibake float_of_str toscrape
           [product_pod [("title"%string, attic_title)] (lit "51.77")
              (lit "In stock") (lit "star-rating Three")] []
           [starting_line toscrape; scraped_line attic_record]
           [attic_record] 0
           (product_pod [("title"%string, attic_title)] (lit "51.77")
              (lit "In stock") (lit "star-rating Three"))
           (element (lit "51.77") [])).
  - vm_compute. reflexivity.
  - reflexivity.
  - vm_compute. reflexivity.
  - apply (bool_decide_unpack _). vm_compute. exact I.
Defined.

(** X4.  A rating class attribute without a space, such as the single
    token "star-rating", has nothing removed: the record's rating is the
    whole attribute. *)
Theorem rating_of_single_token_class (float : str -> option pyfloat)
    (self : BookScraper) (page : Page) (out out' : list str)
    (results : list BookData) (i : nat) (book : ProductPod)
    (rating_el : ElementHandle) (cls : str) :
  fetch_data float self page out = (out', inr results) ->
  page !! i = Some book ->
  query_selector ".star-rating" book = Some rating_el ->
  get_attribute "class" rating_el = Some cls ->
  space ∉ cls ->
  exists r, results !! i = Some r /\ rating r = cls.
Proof.
  intros Hrun Hi Hel Hcls Hspace.
  apply fetch_data_inv in Hrun.
  destruct (Forall2_lookup_l _ _ _ _ _ Hrun Hi) as (r & Hr & Hex).
  exists r. split; [exact Hr|].
  apply extract_fields in Hex
    as (a & p & av & st & cls' & _ & _ & _ & Hst & Hc & _ & _ & _ & Hrating).
  rewrite Hel in Hst. injection Hst as <-.
  rewrite Hcls in Hc. injection Hc as <-.
  rewrite Hrating.
  apply (replace_from_absent (lit "star-rating ") [] cls space);
    [|exact Hspace].
  vm_compute. set_solver.
Qed.

Lemma rating_of_single_token_class_witness :
  exists r,
    [ {| title := Some attic_title; price := Finite false 5177 (-2);
         availability := lit "In stock"; rating := lit "star-rating" |} ]
      !! 0%nat = Some r
    /\ rating r = lit "star-rating".
Proof.
  apply (rating_of_single_token_class float_of_str toscrape
           [product_pod [("title"%string, attic_title)]
              (mojibake_pound ++ lit "51.77") (lit "In stock")
              (lit "star-rating")] []
           [starting_line toscrape; scraped_line attic_record]
           _ 0
           (product_pod [("title"%string, attic_title)]
              (mojibake_pound ++ lit "51.77") (lit "In stock")
              (lit "star-rating"))
           (element [] [("class"%string, lit "star-rating")])
           (lit "star-rating")).
  - vm_compute. reflexivity.
  - reflexivity.
  - vm_compute. reflexivity.
  - vm_compute. reflexivity.
  - apply (bool_decide_unpack _). vm_compute. exact I.
Defined.

(** X15.  The price text the literal of line 81 is made for: on every
    page [fetch_data] returns from, an entry whose price text is U+00C2
    U+00A3 followed by a remainder without U+00C2 yields a record whose
    price is [float] of that remainder. *)
Theorem price_is_float_of_remainder (float : str -> option pyfloat)
    (self : BookScraper) (page : Page) (out out' : list str)
    (results : list BookData) (i : nat) (book : ProductPod)
    (price_el : ElementHandle) (rest : str) :
  fetch_data float self page out = (out', inr results) ->
  page !! i = Some book ->
  query_selector ".price_color" book = Some price_el ->
  inner_text price_el = mojibake_pound ++ rest ->
  194 ∉ rest ->
  exists r, results !! i = Some r /\ float rest = Some (price r).
Proof.
  intros Hrun Hi Hel Htext Hrest.
  apply fetch_data_inv in Hrun.
  destruct (Forall2_lookup_l _ _ _ _ _ Hrun Hi) as (r & Hr & Hex).
  exists r. split; [exact Hr|].
  apply extract_fields in Hex
    as (a & p & av & st & cls & _ & Hp & _ & _ & _ & _ & Hprice & _).
  rewrite Hel in Hp. injection Hp as <-.
  rewrite Htext in Hprice.
  rewrite (replace_prefix mojibake_pound [] rest 194) in Hprice;
    [exact Hprice | left | exact Hrest].
Qed.

Lemma price_is_float_of_remainder_witness :
  exists r, [attic_record] !! 0%nat = Some r /\
            float_of_str (lit "51.77") = Some (price r).
Proof.
  apply (price_is_float_of_remainder float_of_str toscrape [attic_mojibake] []
           [starting_line toscrape; scraped_line attic_record]
           [attic_record] 0 attic_mojibake
           (element (mojibake_pound ++ lit "51.77") []) (lit "51.77")).
  - vm_compute. reflexivity.
  - reflexivity.
  - vm_compute. reflexivity.
  - reflexivity.
  - apply (bool_decide_unpack _). vm_compute. exact I.
Defined.

(** ** The store beyond the claims *)

Lemma foldr_max_ge (ids : list Z) (i x : Z) :
  x ∈ i :: ids -> (x <= foldr Z.max i ids)%Z.
Proof.
  induction ids as [|a ids IH]; intros H.
  - apply list_elem_of_singleton in H. subst x. simpl. lia.
  - simpl. apply elem_of_cons in H as [->|H].
    + assert (i <= foldr Z.max i ids)%Z by (apply IH; left). lia.
    + apply elem_of_cons in H as [->|H]; [lia|].
      assert (x <= foldr Z.max i ids)%Z by (apply IH; right; exact H). lia.
Qed.

Lemma foldr_max_in (ids : list Z) (i : Z) :
  foldr Z.max i ids ∈ i :: ids.
Proof.
  induction ids as [|a ids IH]; simpl; [left|].
  destruct (Z.max_spec a (foldr Z.max i ids)) as [[_ ->]|[_ ->]].
  - apply elem_of_cons in IH as [->|IH]; [left | right; right; exact IH].
  - right; left.
Qed.

Lemma rowids_app (rs1 rs2 : list BookModel.t) :
  rowids (rs1 ++ rs2) = rowids rs1 ++ rowids rs2.
Proof. apply omap_app. Qed.

(** The rowids of a well-keyed table are those of SQLite. *)
Lemma well_keyed_bounds (rs : list BookModel.t) (i : Z) :
  well_keyed rs -> i ∈ rowids rs -> (- 2 ^ 63 <= i <= max_rowid)%Z.
Proof.
  intros [Hsome _] Hi. apply list_elem_of_omap in Hi as (r & Hr & Hid).
  rewrite Forall_forall in Hsome. destruct (Hsome r Hr) as (j & Hj & Hb).
  congruence.
Qed.

(** The rowid of a new row is not in use, and it is one of SQLite's. *)
Lemma new_rowid_fresh (f : Faults) (k : nat) (rs : list BookModel.t) (i : Z) :
  well_keyed rs ->
  new_rowid f k rs = Some i ->
  (i ∉ rowids rs) /\ (- 2 ^ 63 <= i <= max_rowid)%Z.
Proof.
  intros Hkeys. pose proof (well_keyed_bounds rs) as Hb.
  unfold new_rowid. destruct (rowids rs) as [|i0 ids] eqn:Hids.
  - intros H. injection H as <-. split; [apply not_elem_of_nil|].
    unfold max_rowid. lia.
  - destruct (foldr Z.max i0 ids <? max_rowid)%Z eqn:Hlt.
    + intros H. injection H as <-. apply Z.ltb_lt in Hlt. split.
      * intros Hin. apply foldr_max_ge in Hin. lia.
      * pose proof (Hb _ Hkeys (foldr_max_in ids i0)). lia.
    + destruct (random_rowid f k) as [c|]; [|discriminate].
      destruct (bool_decide _) eqn:Hdec; [|discriminate].
      intros H. injection H as <-. apply bool_decide_eq_true in Hdec.
      destruct Hdec as [Hc Hnotin]. split; [exact Hnotin|].
      unfold max_rowid in *. lia.
Qed.

Lemma store_row_well_keyed (f : Faults) (k : nat) (record : BookModel.t)
    (t t' : Table) (i : Z) :
  store_row f k record t = inr (t', i) ->
  well_keyed (rows t) -> well_keyed (rows t').
Proof.
  intros H Hkeys. apply store_row_inv in H as (_ & _ & Hnew & _ & ->).
  destruct (new_rowid_fresh f k (rows t) i Hkeys Hnew) as [Hfresh Hb].
  destruct Hkeys as [Hsome Hnodup]. simpl. split.
  - apply Forall_app. split; [exact Hsome|].
    constructor; [|constructor]. simpl. eauto.
  - rewrite rowids_app. simpl. apply NoDup_app.
    split; [exact Hnodup|]. split; [|apply NoDup_singleton].
    intros x Hx Hnew'. apply list_elem_of_singleton in Hnew'. subst x.
    exact (Hfresh Hx).
Qed.

Lemma insert_many_well_keyed (f : Faults) (records : list BookModel.t)
    (k : nat) (t t' : Table) (ids : list Z) :
  insert_many f k records t = inr (t', ids) ->
  well_keyed (rows t) -> well_keyed (rows t').
Proof.
  revert k t t' ids. induction records as [|r records IH];
    intros k t t' ids H Hkeys.
  - simpl in H. injection H as <- <-. exact Hkeys.
  - cbn [insert_many] in H. unfold insert_one in H.
    destruct (insert_fault f k); [discriminate|].
    destruct (store_row f k r t) as [e|[t1 i]] eqn:Hrow; [discriminate|].
    destruct (insert_many f (S k) records t1) as [e|[t2 ids2]] eqn:Hrest;
      [discriminate|].
    injection H as <- <-.
    apply (IH _ _ _ _ Hrest). exact (store_row_well_keyed _ _ _ _ _ _ Hrow Hkeys).
Qed.

Lemma rowids_permutation (rs rs' : list BookModel.t) :
  rs ≡ₚ rs' -> rowids rs ≡ₚ rowids rs'.
Proof.
  induction 1 as [|x l l' _ IH|x y l|l l' l'' _ IH1 _ IH2]; simpl.
  - reflexivity.
  - unfold rowids in *. simpl. destruct (BookModel.id x); [|exact IH].
    constructor. exact IH.
  - unfold rowids. simpl.
    destruct (BookModel.id x), (BookModel.id y);
      try reflexivity. apply Permutation_swap.
  - etransitivity; eassumption.
Qed.

Lemma well_keyed_permutation (rs rs' : list BookModel.t) :
  rs ≡ₚ rs' -> well_keyed rs -> well_keyed rs'.
Proof.
  intros Hp [Hsome Hnodup]. split.
  - rewrite <- Hp. exact Hsome.
  - rewrite <- (rowids_permutation _ _ Hp). exact Hnodup.
Qed.

(** X5.  [save_books] only adds: on a [books] table with the columns of
    [BookModel], whatever the batch and the faults, the rows a reader
    found before are still there, unchanged, next to what the save
    added: nothing, or one row per record with its fields as the store
    keeps them. *)
Theorem save_books_keeps_existing_rows (f : Faults) (self : DatabaseManager)
    (books : list BookData) (w : World) (old : list BookModel.t) :
  model_table self w ->
  query_all self w = Some old ->
  exists rs news,
    query_all self (fst (save_books f self books w)) = Some rs
    /\ rs ≡ₚ old ++ news
    /\ (news = [] \/ Forall2 stored_fields books news).
Proof.
  intros _ Hq. apply query_all_table in Hq as (t & Ht & Hcols & ->).
  destruct (table_after_save f self books w t Ht)
    as (t' & Ht' & Hcols' & Hsame & Hrows).
  assert (Hq' : query_all self (fst (save_books f self books w))
                = Some (in_rowid_order (rows t'))).
  { unfold query_all. rewrite Ht'. cbn [mbind option_bind].
    rewrite (has_columns_same _ _ _ Hcols'), Hcols. reflexivity. }
  destruct (save_fault f self books w) as [e|] eqn:Hfault.
  - exists (in_rowid_order (rows t')), []. split; [exact Hq'|].
    rewrite (Hsame ltac:(discriminate)), app_nil_r.
    split; [reflexivity | left; reflexivity].
  - destruct (Hrows eq_refl) as (news & Hnews & HF).
    exists (in_rowid_order (rows t')), news. split; [exact Hq'|].
    rewrite !in_rowid_order_permutation, Hnews.
    split; [reflexivity | right; exact HF].
Qed.

Lemma save_books_keeps_existing_rows_witness :
  exists rs news,
    query_all manager
      (fst (save_books (insert_fails_at 0) manager [other_record]
              (fst (save_books no_faults manager [attic_record] ready_world))))
    = Some rs
    /\ rs ≡ₚ [ {| BookModel.id := Some 1%Z;
                  BookModel.title := Some attic_title;
                  BookModel.price := Some (Finite false 5177 (-2));
                  BookModel.availability := lit "In stock";
                  BookModel.rating := lit "Three" |} ] ++ news
    /\ (news = [] \/ Forall2 stored_fields [other_record] news).
Proof.
  apply (save_books_keeps_existing_rows (insert_fails_at 0) manager
           [other_record]
           (fst (save_books no_faults manager [attic_record] ready_world))).
  - eexists. split; vm_compute; reflexivity.
  - vm_compute. reflexivity.
Defined.

(** X7.  Identifiers stay unique: when every row of the table has a
    rowid of SQLite's range and no two rows share one, the same holds
    after [save_books], whatever the batch and the faults, also when the
    largest rowid is taken and SQLite looks for a free one at random. *)
Theorem save_books_keeps_ids_unique (f : Faults) (self : DatabaseManager)
    (books : list BookData) (w : World) (old : list BookModel.t) :
  query_all self w = Some old ->
  well_keyed old ->
  exists rs,
    query_all self (fst (save_books f self books w)) = Some rs
    /\ well_keyed rs.
Proof.
  intros Hq Hkeys. apply query_all_table in Hq as (t & Ht & Hcols & ->).
  apply (well_keyed_permutation _ _ (in_rowid_order_permutation _)) in Hkeys.
  assert (Hgoal : exists t',
    database_at (engine self) (fst (save_books f self books w))
      !! BookModel.__tablename__ = Some t'
    /\ columns t' = columns t /\ well_keyed (rows t')).
  { rewrite save_books_run. unfold after_save.
    destruct (save_fault f self books w); [exists t; auto|].
    cbn [databases]. unfold saved_databases. rewrite Ht.
    destruct books as [|b books]; [exists t; auto|].
    destruct (insert_many f 0 (map record_of (b :: books)) t)
      as [e|[t' ids]] eqn:Hins; [exists t; auto|].
    exists t'. split; [|split].
    - unfold database_at at 1. simpl.
      rewrite lookup_insert_eq. simpl. apply lookup_insert_eq.
    - apply insert_many_rows in Hins. tauto.
    - exact (insert_many_well_keyed _ _ _ _ _ _ Hins Hkeys). }
  destruct Hgoal as (t' & Ht' & Hcols' & Hkeys').
  exists (in_rowid_order (rows t')). split.
  - unfold query_all. rewrite Ht'. cbn [mbind option_bind].
    rewrite (has_columns_same _ _ _ Hcols'), Hcols. reflexivity.
  - apply (well_keyed_permutation (rows t')); [|exact Hkeys'].
    symmetry. apply in_rowid_order_permutation.
Qed.

Lemma save_books_keeps_ids_unique_witness :
  exists rs,
    query_all manager
      (fst (save_books no_faults manager [attic_record; attic_record]
              ready_world))
    = Some rs
    /\ well_keyed rs.
Proof.
  apply (save_books_keeps_ids_unique no_faults manager
           [attic_record; attic_record] ready_world []).
  - vm_compute. reflexivity.
  - split; constructor.
Defined.

Lemma first_fault_app (g : nat -> option Exception) (k n m : nat) :
  first_fault g k (n + m)
  = match first_fault g k n with
    | Some e => Some e
    | None => first_fault g (k + n) m
    end.
Proof.
  revert k. induction n as [|n IH]; intros k; simpl.
  - rewrite Nat.add_0_r. reflexivity.
  - destruct (g k); [reflexivity|]. rewrite IH, Nat.add_succ_r. reflexivity.
Qed.

Lemma first_fault_ext (g h : nat -> option Exception) (k k' n : nat) :
  (forall j, (j < n)%nat -> h (k' + j)%nat = g (k + j)%nat) ->
  first_fault h k' n = first_fault g k n.
Proof.
  revert k k'. induction n as [|n IH]; intros k k' H; [reflexivity|].
  simpl. pose proof (H 0%nat ltac:(lia)) as H0.
  rewrite !Nat.add_0_r in H0. rewrite H0.
  destruct (g k); [reflexivity|]. apply IH.
  intros j Hj. rewrite !Nat.add_succ_l, <- !Nat.add_succ_r. apply H. lia.
Qed.

Lemma insert_many_app (f : Faults) (l1 l2 : list BookModel.t) (k : nat)
    (t : Table) :
  insert_many f k (l1 ++ l2) t
  = match insert_many f k l1 t with
    | inl e => inl e
    | inr (t1, ids1) =>
        match insert_many f (k + length l1) l2 t1 with
        | inl e => inl e
        | inr (t2, ids2) => inr (t2, ids1 ++ ids2)
        end
    end.
Proof.
  revert k t. induction l1 as [|r l1 IH]; intros k t.
  - simpl. rewrite Nat.add_0_r.
    destruct (insert_many f k l2 t) as [e|[t2 ids2]]; reflexivity.
  - cbn [app insert_many length].
    destruct (insert_one f k r t) as [e|[t1 i]]; [reflexivity|].
    rewrite IH. replace (S k + length l1)%nat with (k + S (length l1))%nat by lia.
    destruct (insert_many f (S k) l1 t1) as [e|[t2 ids2]]; [reflexivity|].
    destruct (insert_many f (k + S (length l1)) l2 t2) as [e|[t3 ids3]];
      reflexivity.
Qed.

(** An INSERT that goes through goes the same way in an environment that
    finds the same rowid. *)
Lemma store_row_transport (f g : Faults) (k k' : nat) (record : BookModel.t)
    (t : Table) (r : Table * Z) :
  random_rowid g k' = random_rowid f k ->
  store_row f k record t = inr r ->
  store_row g k' record t = inr r.
Proof.
  unfold store_row, new_rowid. intros ->.
  destruct (has_columns inserted_columns t); [|discriminate].
  destruct (bindable record); [|discriminate].
  destruct (rowids (rows t)) as [|i0 ids]; [|
    destruct (foldr Z.max i0 ids <? max_rowid)%Z; [|
      destruct (random_rowid f k) as [c|]; [|discriminate];
      destruct (bool_decide _); [|discriminate]]];
    (destruct (not_null_ok (columns t) record); [|discriminate]);
    intros H; exact H.
Qed.

(** A flush that goes through goes the same way in an environment that
    holds the same for its INSERTs. *)
Lemma insert_many_transport (f g : Faults) (records : list BookModel.t)
    (k k' : nat) (t : Table) (r : Table * list Z) :
  (forall j, (j < length records)%nat ->
     insert_fault g (k' + j)%nat = insert_fault f (k + j)%nat
     /\ random_rowid g (k' + j)%nat = random_rowid f (k + j)%nat) ->
  insert_many f k records t = inr r ->
  insert_many g k' records t = inr r.
Proof.
  revert k k' t r. induction records as [|x records IH]; intros k k' t r H Hf.
  - exact Hf.
  - cbn [insert_many] in *. unfold insert_one in *.
    destruct (H 0%nat ltac:(simpl; lia)) as [Hi Hr].
    rewrite !Nat.add_0_r in Hi, Hr. rewrite Hi.
    destruct (insert_fault f k); [discriminate|].
    destruct (store_row f k x t) as [e|[t1 i]] eqn:Hrow; [discriminate|].
    rewrite (store_row_transport f g k k' x t _ Hr Hrow).
    destruct (insert_many f (S k) records t1) as [e|[t2 ids2]] eqn:Hrest;
      [discriminate|].
    rewrite (IH (S k) (S k') _ _ ltac:(intros j Hj;
               rewrite !Nat.add_succ_l, <- !Nat.add_succ_r;
               apply H; simpl; lia) Hrest).
    exact Hf.
Qed.

(** A save of records that went through found the database free and the
    table there, and its INSERTs went through. *)
Lemma save_fault_none_inv (f : Faults) (self : DatabaseManager)
    (b : BookData) (books : list BookData) (w : World) :
  save_fault f self (b :: books) w = None ->
  first_fault (add_fault f) 0 (length (b :: books)) = None
  /\ write_txn w !! engine self = None
  /\ commit_fault f = None
  /\ exists t t' ids,
       database_at (engine self) w !! BookModel.__tablename__ = Some t
       /\ insert_many f 0 (map record_of (b :: books)) t = inr (t', ids).
Proof.
  unfold save_fault.
  destruct (first_fault (add_fault f) 0 (length (b :: books))); [discriminate|].
  destruct (write_txn w !! engine self); [discriminate|].
  destruct (database_at (engine self) w !! BookModel.__tablename__) as [t|];
    [|discriminate].
  destruct (insert_many f 0 (map record_of (b :: books)) t)
    as [e|[t' ids]] eqn:Hins; [discriminate|].
  intros Hc. repeat split; [exact Hc|]. exists t, t', ids. auto.
Qed.

Lemma faults_then_nil (f1 f2 : Faults) (k : nat) :
  add_fault (faults_then f1 0 f2) k = add_fault f2 k
  /\ insert_fault (faults_then f1 0 f2) k = insert_fault f2 k
  /\ random_rowid (faults_then f1 0 f2) k = random_rowid f2 k.
Proof. simpl. rewrite Nat.sub_0_r. auto. Qed.

(** X8.  Two saves that go through, one after the other, commit what one
    save of the two batches joined commits in the environment of the
    first followed by that of the second: the second batch is added
    after the first, nothing is merged or dropped, so a batch saved twice
    is stored twice. *)
Theorem save_books_twice (f1 f2 : Faults) (self : DatabaseManager)
    (bs1 bs2 : list BookData) (w : World) :
  save_fault f1 self bs1 w = None ->
  save_fault f2 self bs2 (fst (save_books f1 self bs1 w)) = None ->
  save_fault (faults_then f1 (length bs1) f2) self (bs1 ++ bs2) w = None
  /\ databases (fst (save_books f2 self bs2 (fst (save_books f1 self bs1 w))))
     = databases (fst (save_books (faults_then f1 (length bs1) f2) self
                         (bs1 ++ bs2) w)).
Proof.
  rewrite !save_books_run. cbn [fst]. intros H1 H2.
  assert (Hw1 : after_save f1 self bs1 w
                = {| databases := saved_databases f1 self bs1 w;
                     write_txn := write_txn w;
                     stdout := stdout w ++ [success_line bs1];
                     session := closed_session self |})
    by (unfold after_save; rewrite H1; reflexivity).
  rewrite Hw1 in *. clear Hw1.
  set (g := faults_then f1 (length bs1) f2).
  unfold after_save at 1. rewrite H2. cbn [databases].
  destruct bs2 as [|b2 bs2].
  { (* the second batch is empty *)
    rewrite app_nil_r.
    assert (Hg : save_fault g self bs1 w = None
                 /\ saved_databases g self bs1 w = saved_databases f1 self bs1 w).
    { destruct bs1 as [|b1 bs1]; [split; reflexivity|].
      pose proof H1 as H1'.
      apply save_fault_none_inv in H1'
        as (Hadd & Hlock & _ & t & t' & ids & Ht & Hins).
      assert (Hins' : insert_many g 0 (map record_of (b1 :: bs1)) t
                      = inr (t', ids)).
      { apply (insert_many_transport f1 g _ 0 0); [|exact Hins].
        intros j Hj. rewrite length_map in Hj. subst g.
        cbn [faults_then insert_fault random_rowid Nat.add].
        assert (Hlt : (j <? length (b1 :: bs1))%nat = true)
          by (apply Nat.ltb_lt; exact Hj).
        rewrite Hlt. auto. }
      split.
      - unfold save_fault.
        rewrite (first_fault_ext (add_fault f1) (add_fault g) 0 0), Hadd.
        + rewrite Hlock, Ht, Hins'. reflexivity.
        + intros j Hj. subst g. cbn [faults_then add_fault Nat.add].
          assert (Hlt : (j <? length (b1 :: bs1))%nat = true)
            by (apply Nat.ltb_lt; exact Hj).
          rewrite Hlt. reflexivity.
      - unfold saved_databases. rewrite Ht, Hins', Hins. reflexivity. }
    destruct Hg as [Hg1 Hg2]. split; [exact Hg1|].
    unfold after_save. rewrite Hg1. cbn [databases]. exact (eq_sym Hg2). }
  destruct bs1 as [|b1 bs1].
  { (* the first batch is empty *)
    cbn [app]. cbn [saved_databases] in *.
    pose proof H2 as H2'.
    apply save_fault_none_inv in H2'
      as (Hadd & Hlock & Hcommit & t & t' & ids & Ht & Hins).
    cbn [write_txn databases] in *.
    change (database_at (engine self)
              {| databases := databases w; write_txn := write_txn w;
                 stdout := stdout w ++ [success_line []];
                 session := closed_session self |})
      with (database_at (engine self) w) in Ht.
    assert (Hins' : insert_many g 0 (map record_of (b2 :: bs2)) t
                    = inr (t', ids)).
    { apply (insert_many_transport f2 g _ 0 0); [|exact Hins].
      intros j Hj. subst g. simpl. rewrite Nat.sub_0_r. auto. }
    assert (Hg1 : save_fault g self (b2 :: bs2) w = None).
    { unfold save_fault.
      rewrite (first_fault_ext (add_fault f2) (add_fault g) 0 0), Hadd.
      - rewrite Hlock, Ht, Hins'. reflexivity.
      - intros j Hj. subst g. simpl. rewrite Nat.sub_0_r. reflexivity. }
    split; [exact Hg1|].
    unfold after_save. rewrite Hg1. cbn [databases].
    unfold saved_databases.
    change (database_at (engine self)
              {| databases := databases w; write_txn := write_txn w;
                 stdout := stdout w ++ [success_line []];
                 session := closed_session self |})
      with (database_at (engine self) w).
    rewrite Ht, Hins', Hins. reflexivity. }
  (* both batches hold records *)
  pose proof H1 as H1'.
  apply save_fault_none_inv in H1'
    as (Hadd1 & Hlock & _ & t & T1 & ids1 & Ht & Hins1).
  set (db := database_at (engine self) w) in *.
  set (w1 := {| databases := saved_databases f1 self (b1 :: bs1) w;
                write_txn := write_txn w;
                stdout := stdout w ++ [success_line (b1 :: bs1)];
                session := closed_session self |}) in *.
  assert (HD1 : databases w1
                = <[engine self := <[BookModel.__tablename__ := T1]> db]>
                    (databases w)).
  { subst w1. cbn [databases]. unfold saved_databases.
    fold db. rewrite Ht, Hins1. reflexivity. }
  assert (Hdb1 : database_at (engine self) w1
                 = <[BookModel.__tablename__ := T1]> db).
  { unfold database_at at 1. rewrite HD1, lookup_insert_eq. reflexivity. }
  assert (Ht1 : database_at (engine self) w1 !! BookModel.__tablename__
                = Some T1)
    by (rewrite Hdb1; apply lookup_insert_eq).
  pose proof H2 as H2'.
  apply save_fault_none_inv in H2'
    as (Hadd2 & _ & Hcommit & t1 & T2 & ids2 & Ht1' & Hins2).
  rewrite Ht1 in Ht1'. injection Ht1' as <-.
  assert (Hins : insert_many g 0
                   (map record_of ((b1 :: bs1) ++ b2 :: bs2)) t
                 = inr (T2, ids1 ++ ids2)).
  { rewrite map_app, insert_many_app.
    rewrite (insert_many_transport f1 g _ 0 0 t (T1, ids1)); [|
      intros j Hj; rewrite length_map in Hj; subst g; cbn [faults_then
        insert_fault random_rowid Nat.add];
      assert (Hlt : (j <? length (b1 :: bs1))%nat = true)
        by (apply Nat.ltb_lt; exact Hj);
      rewrite Hlt; auto | exact Hins1].
    rewrite (insert_many_transport f2 g _ 0 (0 + length (map record_of (b1 :: bs1)))
               T1 (T2, ids2)); [reflexivity | | exact Hins2].
    intros j Hj. rewrite length_map. subst g.
    cbn [faults_then insert_fault random_rowid Nat.add].
    assert (Hlt : (length (b1 :: bs1) + j <? length (b1 :: bs1))%nat = false)
      by (apply Nat.ltb_ge; lia).
    rewrite Hlt.
    replace (length (b1 :: bs1) + j - length (b1 :: bs1))%nat with j by lia.
    auto. }
  assert (Hg1 : save_fault g self ((b1 :: bs1) ++ b2 :: bs2) w = None).
  { unfold save_fault. rewrite length_app, first_fault_app.
    rewrite (first_fault_ext (add_fault f1) (add_fault g) 0 0), Hadd1.
    - rewrite (first_fault_ext (add_fault f2) (add_fault g) 0
                 (0 + length (b1 :: bs1))), Hadd2.
      + cbn [app]. rewrite Hlock. fold db. rewrite Ht.
        change (b1 :: bs1 ++ b2 :: bs2) with ((b1 :: bs1) ++ b2 :: bs2).
        rewrite Hins. reflexivity.
      + intros j Hj. subst g. cbn [faults_then add_fault Nat.add].
        assert (Hlt : (length (b1 :: bs1) + j <? length (b1 :: bs1))%nat
                      = false) by (apply Nat.ltb_ge; lia).
        rewrite Hlt.
        replace (length (b1 :: bs1) + j - length (b1 :: bs1))%nat with j by lia.
        reflexivity.
    - intros j Hj. subst g. cbn [faults_then add_fault Nat.add].
      assert (Hlt : (j <? length (b1 :: bs1))%nat = true)
        by (apply Nat.ltb_lt; exact Hj).
      rewrite Hlt. reflexivity. }
  split; [exact Hg1|].
  unfold after_save. rewrite Hg1. cbn [databases].
  unfold saved_databases at 1. rewrite Ht1, Hins2, Hdb1, HD1.
  rewrite !insert_insert_eq.
  unfold saved_databases. cbn [app]. fold db. rewrite Ht.
  change (b1 :: bs1 ++ b2 :: bs2) with ((b1 :: bs1) ++ b2 :: bs2).
  rewrite Hins. reflexivity.
Qed.

Lemma save_books_twice_witness :
  save_fault (faults_then no_faults (length [attic_record]) no_faults) manager
    ([attic_record] ++ [attic_record]) ready_world = None
  /\ databases (fst (save_books no_faults manager [attic_record]
                       (fst (save_books no_faults manager [attic_record]
                               ready_world))))
     = databases (fst (save_books
                         (faults_then no_faults (length [attic_record])
                            no_faults)
                         manager ([attic_record] ++ [attic_record])
                         ready_world)).
Proof.
  apply (save_books_twice no_faults no_faults manager
           [attic_record] [attic_record] ready_world).
  - vm_compute. reflexivity.
  - vm_compute. reflexivity.
Defined.

(** With room above the rowids of the table, a new row takes the next
    one. *)
Lemma store_row_room (f : Faults) (k : nat) (record : BookModel.t) (t : Table)
    (n : nat) :
  has_columns inserted_columns t = true ->
  bindable record = true ->
  not_null_ok (columns t) record = true ->
  room_for (S n) (rows t) ->
  exists i,
    store_row f k record t
    = inr ({| columns := columns t;
              rows := rows t ++ [stored_row i record] |}, i)
    /\ room_for n (rows t ++ [stored_row i record])
    /\ (forall j, j ∈ rowids (rows t) -> (j < i)%Z)
    /\ (rowids (rows t) = [] -> i = 1%Z).
Proof.
  intros Hcols Hbind Hnull Hroom. unfold store_row, new_rowid.
  rewrite Hcols, Hbind.
  unfold room_for in *. destruct (rowids (rows t)) as [|i0 ids] eqn:Hids.
  - exists 1%Z. rewrite Hnull. split; [reflexivity|]. split; [|split].
    + intros i Hi. rewrite rowids_app, Hids in Hi. simpl in Hi.
      pose proof (Hroom 0%Z ltac:(left)).
      apply elem_of_cons in Hi as [->|Hi]; [lia|].
      apply list_elem_of_singleton in Hi. subst i. lia.
    + intros j Hj. inversion Hj.
    + reflexivity.
  - pose proof (foldr_max_in ids i0) as Hin.
    pose proof (Hroom _ ltac:(right; exact Hin)) as Hlargest.
    assert (Hlt : (foldr Z.max i0 ids <? max_rowid)%Z = true)
      by (apply Z.ltb_lt; lia).
    rewrite Hlt, Hnull. eexists. split; [reflexivity|]. split; [|split].
    + intros i Hi. rewrite rowids_app, Hids in Hi.
      apply elem_of_cons in Hi as [->|Hi].
      { pose proof (Hroom 0%Z ltac:(left)). lia. }
      apply elem_of_app in Hi as [Hi|Hi].
      * pose proof (Hroom i ltac:(right; exact Hi)). lia.
      * simpl in Hi. apply list_elem_of_singleton in Hi. subst i. lia.
    + intros j Hj. apply foldr_max_ge in Hj. lia.
    + discriminate.
Qed.

(** A row whose rowid is not below those of the others is delivered
    last. *)
Lemma place_last (r : BookModel.t) (rs : list BookModel.t) :
  (forall x, x ∈ rs -> (rowid x <= rowid r)%Z) -> place r rs = rs ++ [r].
Proof.
  induction rs as [|x rs IH]; intros H; [reflexivity|].
  simpl. assert (Hx : (rowid x <=? rowid r)%Z = true)
    by (apply Z.leb_le, H; left).
  rewrite Hx, IH; [reflexivity|]. intros y Hy. apply H. right. exact Hy.
Qed.

Lemma in_rowid_order_snoc (rs : list BookModel.t) (r : BookModel.t) :
  in_rowid_order (rs ++ [r]) = place r (in_rowid_order rs).
Proof. unfold in_rowid_order. rewrite foldl_snoc. reflexivity. Qed.

(** With room above the rowids of a table whose rows all have one, and
    no fault, the INSERTs of a flush go through, and a scan delivers the
    new rows after the old ones, in the order of the batch. *)
Lemma insert_many_room (f : Faults) (records : list BookModel.t) (k : nat)
    (t : Table) :
  (forall j, (k <= j < k + length records)%nat -> insert_fault f j = None) ->
  has_columns inserted_columns t = true ->
  Forall (fun r => bindable r = true
                   /\ not_null_ok (columns t) r = true) records ->
  room_for (length records) (rows t) ->
  exists t' ids,
    insert_many f k records t = inr (t', ids)
    /\ (well_keyed (rows t) ->
        in_rowid_order (rows t')
        = in_rowid_order (rows t) ++ zip_with stored_row ids records)
    /\ (rowids (rows t) = [] -> records <> [] -> head ids = Some 1%Z).
Proof.
  revert k t.
  induction records as [|r records IH]; intros k t Hf Hcols Hrec Hroom.
  - exists t, []. split; [reflexivity|]. split.
    + intros _. simpl. rewrite app_nil_r. reflexivity.
    + intros _ H. congruence.
  - inversion Hrec as [|? ? [Hbind Hnull] Hrec']; subst.
    destruct (store_row_room f k r t (length records) Hcols Hbind Hnull Hroom)
      as (i & Hrow & Hroom' & Habove & Hfirst).
    set (t1 := {| columns := columns t;
                  rows := rows t ++ [stored_row i r] |}) in *.
    destruct (IH (S k) t1) as (t' & ids & Hins & Horder & _).
    { intros j Hj. apply Hf. simpl. lia. }
    { exact Hcols. }
    { exact Hrec'. }
    { exact Hroom'. }
    exists t', (i :: ids). cbn [insert_many]. unfold insert_one.
    rewrite (Hf k) by (simpl; lia). rewrite Hrow, Hins.
    split; [reflexivity|]. split.
    + intros Hkeys.
      assert (Hkeys1 : well_keyed (rows t1))
        by exact (store_row_well_keyed _ _ _ _ _ _ Hrow Hkeys).
      rewrite (Horder Hkeys1). subst t1. cbn [rows].
      rewrite in_rowid_order_snoc, place_last.
      * rewrite <- app_assoc. reflexivity.
      * intros x Hx. rewrite in_rowid_order_permutation in Hx.
        destruct Hkeys as [Hsome _]. rewrite Forall_forall in Hsome.
        destruct (Hsome x Hx) as (j & Hj & _).
        assert (Hin : j ∈ rowids (rows t)).
        { apply list_elem_of_omap. exists x. auto. }
        apply Habove in Hin. unfold rowid. rewrite Hj. simpl. lia.
    + intros Hnone _. simpl. rewrite (Hfirst Hnone). reflexivity.
Qed.

(** The table of [BookModel] takes every object: its columns are there
    and only [id], which SQLite fills in, is declared NOT NULL. *)
Lemma not_null_ok_model (record : BookModel.t) :
  not_null_ok BookModel.__table__ record = true.
Proof. reflexivity. Qed.

Lemma storable_records (books : list BookData) (t : Table) :
  columns t = BookModel.__table__ ->
  Forall storable books ->
  Forall (fun r => bindable r = true /\ not_null_ok (columns t) r = true)
    (map record_of books).
Proof.
  intros Hcols H. apply Forall_map. eapply Forall_impl; [exact H|].
  intros b Hb. split; [exact Hb|]. rewrite Hcols. apply not_null_ok_model.
Qed.

Lemma has_columns_model (t : Table) :
  columns t = BookModel.__table__ ->
  has_columns inserted_columns t = true
  /\ has_columns selected_columns t = true.
Proof.
  intros H. unfold has_columns, column_names. rewrite H.
  split; vm_compute; reflexivity.
Qed.

(** What stands in the way of a save when the environment holds no
    fault for the batch: a writer on the database, no table, a table of
    another schema, a text that cannot be bound, or no rowid left. *)
Lemma save_fault_fault_free (f : Faults) (self : DatabaseManager)
    (books : list BookData) (w : World) (t : Table) :
  fault_free f (length books) ->
  write_txn w !! engine self = None ->
  database_at (engine self) w !! BookModel.__tablename__ = Some t ->
  columns t = BookModel.__table__ ->
  Forall storable books ->
  room_for (length books) (rows t) ->
  save_fault f self books w = None.
Proof.
  intros [Hfaults Hcommit] Hlock Ht Hcols Hbooks Hroom. unfold save_fault.
  rewrite first_fault_none by (intros j Hj; apply Hfaults; lia).
  destruct books as [|b books]; [reflexivity|].
  rewrite Hlock, Ht.
  destruct (insert_many_room f (map record_of (b :: books)) 0 t)
    as (t' & ids & Hins & _).
  - intros j Hj. rewrite length_map in Hj. apply Hfaults. lia.
  - apply has_columns_model. exact Hcols.
  - apply storable_records; assumption.
  - rewrite length_map. exact Hroom.
  - rewrite Hins. exact Hcommit.
Qed.

(** The handle and the world [DatabaseManager] leaves when it returns. *)
Lemma DatabaseManager_init_returns (resolve : string -> option Url)
    (f : Faults) (connection_string : string) (w w1 : World)
    (self : DatabaseManager) :
  DatabaseManager_init resolve f connection_string w = (w1, inr self) ->
  write_txn w1 = write_txn w
  /\ stdout w1 = stdout w
  /\ database_at (engine self) w1
     = create_all metadata (database_at (engine self) w)
  /\ (database_at (engine self) w !! BookModel.__tablename__ = None ->
      write_txn w !! engine self = None).
Proof.
  unfold DatabaseManager_init, create_engine, bind.
  destruct (resolve connection_string) as [[|file]|]; [| |discriminate].
  - unfold metadata_create_all.
    set (target := InMemory (fresh_memory (databases w))).
    destruct (database_at target w !! BookModel.__tablename__) eqn:Ht;
      [|destruct (write_txn w !! target) eqn:Hlock; [discriminate|]];
      unfold ret; intros H; injection H as <- <-; cbn [engine];
      (repeat split; [|congruence]);
      unfold database_at at 1; simpl; rewrite lookup_insert_eq; reflexivity.
  - unfold metadata_create_all.
    set (target := OnDisk file).
    destruct (database_at target w !! BookModel.__tablename__) eqn:Ht;
      [|destruct (write_txn w !! target) eqn:Hlock; [discriminate|]];
      unfold ret; intros H; injection H as <- <-; cbn [engine];
      (repeat split; [|congruence]);
      unfold database_at at 1; simpl; rewrite lookup_insert_eq; reflexivity.
Qed.

(** After the constructor the table is there: the one of before, or a
    new one, empty and with the columns of [BookModel]. *)
Lemma table_after_init (resolve : string -> option Url) (f : Faults)
    (connection_string : string) (w w1 : World) (self : DatabaseManager) :
  DatabaseManager_init resolve f connection_string w = (w1, inr self) ->
  exists t,
    database_at (engine self) w1 !! BookModel.__tablename__ = Some t
    /\ match database_at (engine self) w !! BookModel.__tablename__ with
       | Some t0 => t = t0
       | None => t = {| columns := BookModel.__table__; rows := [] |}
       end.
Proof.
  intros H. apply DatabaseManager_init_returns in H as (_ & _ & Hdb & _).
  rewrite Hdb, create_all_metadata.
  destruct (database_at (engine self) w !! BookModel.__tablename__)
    as [t0|] eqn:Ht0.
  - exists t0. split; [exact Ht0 | reflexivity].
  - eexists. split; [apply lookup_insert_eq | reflexivity].
Qed.

(** X9.  A handle [DatabaseManager] returned can save: when no writer
    holds the database, the environment holds no fault for the batch,
    the texts of the records can be bound, and the [books] table that
    was there, if any, has the columns of [BookModel] and room for the
    batch above its rowids, [save_books] on the world the constructor
    left prints its success line and a reader finds the rows of before
    and one row per record, with its fields as the store keeps them. *)
Theorem constructed_manager_saves (resolve : string -> option Url)
    (f : Faults) (connection_string : string) (books : list BookData)
    (w w1 : World) (self : DatabaseManager) :
  DatabaseManager_init resolve f connection_string w = (w1, inr self) ->
  write_txn w !! engine self = None ->
  fault_free f (length books) ->
  Forall storable books ->
  (Z.of_nat (length books) <= max_rowid)%Z ->
  (forall t,
     database_at (engine self) w !! BookModel.__tablename__ = Some t ->
     columns t = BookModel.__table__ /\ room_for (length books) (rows t)) ->
  exists old rs news,
    query_all self w1 = Some old
    /\ query_all self (fst (save_books f self books w1)) = Some rs
    /\ rs ≡ₚ old ++ news
    /\ Forall2 stored_fields books news
    /\ stdout (fst (save_books f self books w1))
       = stdout w1 ++ [success_line books].
Proof.
  intros Hinit Hlock Hfree Hbooks Hfits Hschema.
  destruct (table_after_init _ _ _ _ _ _ Hinit) as (t & Ht & Hwas).
  pose proof (DatabaseManager_init_returns _ _ _ _ _ _ Hinit)
    as (Htxn & _ & _ & _).
  assert (Ht_ok : columns t = BookModel.__table__
                  /\ room_for (length books) (rows t)).
  { destruct (database_at (engine self) w !! BookModel.__tablename__)
      as [t0|]; subst t; [apply Hschema; reflexivity|].
    split; [reflexivity|]. intros i Hi. simpl in Hi.
    apply list_elem_of_singleton in Hi. subst i. lia. }
  destruct Ht_ok as [Hcols Hroom].
  destruct (has_columns_model t Hcols) as [Hins Hsel].
  assert (Hok : save_fault f self books w1 = None).
  { apply (save_fault_fault_free f self books w1 t Hfree); try assumption.
    rewrite Htxn. exact Hlock. }
  destruct (table_after_save f self books w1 t Ht)
    as (t' & Ht' & Hcols' & _ & Hrows).
  destruct (Hrows Hok) as (news & Hnews & HF).
  exists (in_rowid_order (rows t)), (in_rowid_order (rows t')), news.
  split; [|split; [|split; [|split]]].
  - unfold query_all. rewrite Ht. cbn [mbind option_bind].
    rewrite Hsel. reflexivity.
  - unfold query_all. rewrite Ht'. cbn [mbind option_bind].
    rewrite (has_columns_same _ _ _ Hcols'), Hsel. reflexivity.
  - rewrite !in_rowid_order_permutation, Hnews. reflexivity.
  - exact HF.
  - apply success_line_printed. exact Hok.
Qed.

Lemma constructed_manager_saves_witness :
  exists old rs news,
    query_all manager ready_world = Some old
    /\ query_all manager
         (fst (save_books no_faults manager [attic_record; nan_record]
                 ready_world))
       = Some rs
    /\ rs ≡ₚ old ++ news
    /\ Forall2 stored_fields [attic_record; nan_record] news
    /\ stdout (fst (save_books no_faults manager [attic_record; nan_record]
                      ready_world))
       = stdout ready_world ++ [success_line [attic_record; nan_record]].
Proof.
  apply (constructed_manager_saves resolve_sqlite no_faults books_db
           [attic_record; nan_record] empty_world ready_world manager).
  - vm_compute. reflexivity.
  - reflexivity.
  - split; [intros k _; split; reflexivity | reflexivity].
  - repeat constructor.
  - vm_compute. discriminate.
  - intros t Ht. vm_compute in Ht. discriminate.
Defined.

(** X10.  On a target with no database yet, after the constructor and a
    save of a batch that meets no fault and whose texts can be bound,
    [query(BookModel).first()] gives the row of the first record of the
    batch, with its fields as the store keeps them and the identifier
    1. *)
Theorem first_row_of_new_database (resolve : string -> option Url)
    (f : Faults) (connection_string : string) (b : BookData)
    (books : list BookData) (w w1 : World) (self : DatabaseManager) :
  DatabaseManager_init resolve f connection_string w = (w1, inr self) ->
  databases w !! engine self = None ->
  write_txn w !! engine self = None ->
  fault_free f (length (b :: books)) ->
  Forall storable (b :: books) ->
  (Z.of_nat (length (b :: books)) <= max_rowid)%Z ->
  exists row,
    query_first self (fst (save_books f self (b :: books) w1))
    = Some (Some row)
    /\ stored_fields b row
    /\ BookModel.id row = Some 1%Z.
Proof.
  intros Hinit Hnone Hlock Hfree Hbooks Hfits.
  destruct (table_after_init _ _ _ _ _ _ Hinit) as (t & Ht & Hwas).
  pose proof (DatabaseManager_init_returns _ _ _ _ _ _ Hinit)
    as (Htxn & _ & _ & _).
  assert (Hempty : t = {| columns := BookModel.__table__; rows := [] |}).
  { unfold database_at in Hwas. rewrite Hnone in Hwas. simpl in Hwas.
    rewrite lookup_empty in Hwas. exact Hwas. }
  subst t.
  set (t := {| columns := BookModel.__table__; rows := [] |}) in *.
  destruct (has_columns_model t eq_refl) as [Hcols Hsel].
  destruct (insert_many_room f (map record_of (b :: books)) 0 t)
    as (t' & ids & Hins & Horder & Hfirst).
  { intros j Hj. rewrite length_map in Hj. apply Hfree. lia. }
  { exact Hcols. }
  { apply storable_records; [reflexivity | exact Hbooks]. }
  { rewrite length_map. intros i Hi. simpl in Hi.
    apply list_elem_of_singleton in Hi. subst i. lia. }
  assert (Hok : save_fault f self (b :: books) w1 = None).
  { unfold save_fault.
    rewrite first_fault_none by (intros j Hj; apply Hfree; lia).
    rewrite Htxn, Hlock, Ht, Hins. apply Hfree. }
  assert (Ht' : database_at (engine self)
                  (fst (save_books f self (b :: books) w1))
                  !! BookModel.__tablename__ = Some t').
  { rewrite save_books_run. unfold after_save. rewrite Hok.
    cbn [fst databases]. unfold saved_databases. rewrite Ht, Hins.
    unfold database_at at 1. simpl.
    rewrite lookup_insert_eq. simpl. apply lookup_insert_eq. }
  pose proof (insert_many_rows _ _ _ _ _ _ Hins) as (Hcols' & _ & Hlen).
  specialize (Horder ltac:(split; constructor)).
  specialize (Hfirst eq_refl ltac:(discriminate)).
  destruct ids as [|i ids]; [discriminate|]. injection Hfirst as ->.
  unfold query_first, query_all. rewrite Ht'. cbn [mbind option_bind].
  rewrite (has_columns_same _ _ _ Hcols'), Hsel. cbn [mbind option_bind].
  rewrite Horder. simpl.
  eexists. split; [reflexivity|]. split; [repeat split | reflexivity].
Qed.

Lemma first_row_of_new_database_witness :
  exists row,
    query_first {| engine := InMemory 0 |}
      (fst (save_books no_faults {| engine := InMemory 0 |}
              [nan_record; other_record]
              (fst (DatabaseManager_init resolve_sqlite no_faults memory_db
                      empty_world))))
    = Some (Some row)
    /\ stored_fields nan_record row
    /\ BookModel.id row = Some 1%Z.
Proof.
  apply (first_row_of_new_database resolve_sqlite no_faults memory_db
           nan_record [other_record] empty_world
           (fst (DatabaseManager_init resolve_sqlite no_faults memory_db
                   empty_world))
           {| engine := InMemory 0 |}).
  - vm_compute. reflexivity.
  - reflexivity.
  - reflexivity.
  - split; [intros k _; split; reflexivity | reflexivity].
  - repeat constructor.
  - vm_compute. discriminate.
Defined.

Lemma fresh_memory_above (l : list nat) (n : nat) :
  n ∈ l -> (n < foldr (fun n m => Nat.max (S n) m) 0 l)%nat.
Proof.
  induction l as [|x l IH]; intros H; [inversion H|].
  simpl. apply elem_of_cons in H as [->|H]; [lia|].
  specialize (IH H). lia.
Qed.

(** No database is in the memory the next engine takes. *)
Lemma fresh_memory_fresh (dbs : gmap Location Database) :
  dbs !! InMemory (fresh_memory dbs) = None.
Proof.
  destruct (dbs !! InMemory (fresh_memory dbs)) as [db|] eqn:Hdb;
    [|reflexivity].
  exfalso. apply elem_of_map_to_list in Hdb.
  assert (Hin : fresh_memory dbs ∈ memory_numbers dbs).
  { unfold memory_numbers. apply list_elem_of_omap.
    exists (InMemory (fresh_memory dbs), db). split; [exact Hdb|reflexivity]. }
  apply fresh_memory_above in Hin. fold (fresh_memory dbs) in Hin. lia.
Qed.

(** X16.  On the in-memory URL every construction gets a database of its
    own: when the constructor returns, the database of its handle was not
    there before, every other database is as it was, and a reader on the
    handle finds the [books] table without rows. *)
Theorem in_memory_store_is_new (resolve : string -> option Url) (f : Faults)
    (connection_string : string) (w w1 : World) (self : DatabaseManager) :
  resolve connection_string = Some MemoryUrl ->
  DatabaseManager_init resolve f connection_string w = (w1, inr self) ->
  databases w !! engine self = None
  /\ (forall l, l <> engine self -> databases w1 !! l = databases w !! l)
  /\ query_all self w1 = Some [].
Proof.
  intros Hurl. unfold DatabaseManager_init, create_engine, bind.
  rewrite Hurl. unfold metadata_create_all.
  set (target := InMemory (fresh_memory (databases w))).
  assert (Hnone : databases w !! target = None) by apply fresh_memory_fresh.
  assert (Hempty : database_at target w = ∅)
    by (unfold database_at; rewrite Hnone; reflexivity).
  rewrite Hempty, lookup_empty.
  destruct (write_txn w !! target); [discriminate|].
  unfold ret. intros H. injection H as <- <-. cbn [engine].
  split; [exact Hnone|]. split.
  - intros l Hl. simpl. apply lookup_insert_ne. congruence.
  - unfold query_all, database_at. simpl. rewrite lookup_insert_eq.
    reflexivity.
Qed.

Lemma in_memory_store_is_new_witness :
  databases
    (fst (save_books no_faults {| engine := InMemory 0 |} [attic_record]
            (fst (DatabaseManager_init resolve_sqlite no_faults memory_db
                    empty_world))))
    !! engine {| engine := InMemory 1 |} = None
  /\ (forall l, l <> engine {| engine := InMemory 1 |} ->
        databases
          (fst (DatabaseManager_init resolve_sqlite no_faults memory_db
                  (fst (save_books no_faults {| engine := InMemory 0 |}
                          [attic_record]
                          (fst (DatabaseManager_init resolve_sqlite no_faults
                                  memory_db empty_world)))))) !! l
        = databases
            (fst (save_books no_faults {| engine := InMemory 0 |}
                    [attic_record]
                    (fst (DatabaseManager_init resolve_sqlite no_faults
                            memory_db empty_world)))) !! l)
  /\ query_all {| engine := InMemory 1 |}
       (fst (DatabaseManager_init resolve_sqlite no_faults memory_db
               (fst (save_books no_faults {| engine := InMemory 0 |}
                       [attic_record]
                       (fst (DatabaseManager_init resolve_sqlite no_faults
                               memory_db empty_world))))))
     = Some [].
Proof.
  apply (in_memory_store_is_new resolve_sqlite no_faults memory_db
           (fst (save_books no_faults {| engine := InMemory 0 |}
                   [attic_record]
                   (fst (DatabaseManager_init resolve_sqlite no_faults
                           memory_db empty_world))))).
  - reflexivity.
  - vm_compute. reflexivity.
Defined.

(** ** [main] *)

Lemma Forall2_compose {A B C} (P : A -> B -> Prop) (Q : B -> C -> Prop)
    (l1 : list A) (l2 : list B) (l3 : list C) :
  Forall2 P l1 l2 -> Forall2 Q l2 l3 ->
  Forall2 (fun x z => exists y, P x y /\ Q y z) l1 l3.
Proof.
  intros H. revert l3. induction H as [|x y l1 l2 Hxy _ IH]; intros l3 HQ.
  - inversion HQ. constructor.
  - inversion HQ as [|? z ? l3' Hyz HQ']; subst.
    constructor; [exists y; split; assumption | apply IH; exact HQ'].
Qed.

Section MainProperties.
Variable float : str -> option pyfloat.

(** The loop prints one line per entry it got through, nothing else. *)
Lemma for_book_in_output (books : list ProductPod) (acc : list BookData)
    (out : list str) :
  exists rs,
    fst (for_book_in float books acc out) = out ++ map scraped_line rs.
Proof.
  revert acc out. induction books as [|book books IH]; intros acc out.
  - exists []. simpl. rewrite app_nil_r. reflexivity.
  - cbn [for_book_in]. unfold bind at 1. rewrite scrape_book_pure.
    destruct (extract float book) as [e|r].
    + exists []. simpl. rewrite app_nil_r. reflexivity.
    + unfold bind at 1. unfold print, modify, write_line, stdout_lines.
      destruct (IH (acc ++ [r]) (out ++ [scraped_line r])) as [rs Hrs].
      exists (r :: rs). unfold scraped_line in Hrs at 1.
      rewrite Hrs. simpl. rewrite <- app_assoc. reflexivity.
Qed.

Lemma fetch_data_output (self : BookScraper) (page : Page) (out : list str) :
  exists rs,
    fst (fetch_data float self page out)
    = out ++ starting_line self :: map scraped_line rs.
Proof.
  unfold fetch_data, query_selector_all_product_pod.
  unfold bind at 1. unfold print, modify, write_line, stdout_lines.
  unfold bind at 1.
  destruct (wait_for_selector_product_pod page _) as [out1 [e|[]]] eqn:Hwait.
  - exists []. simpl.
    destruct page as [|b page]; simpl in Hwait;
      [|destruct (visible b)]; injection Hwait as <-; reflexivity.
  - assert (out1 = out ++ [starting_line self]) as ->.
    { destruct page as [|b page]; simpl in Hwait;
        [discriminate | destruct (visible b)]; [|discriminate].
      injection Hwait as <-. reflexivity. }
    unfold bind at 1.
    destruct (for_book_in_output page [] (out ++ [starting_line self]))
      as [rs Hrs].
    exists rs.
    destruct (for_book_in float page [] _) as [out2 [e|results]];
      simpl in *; rewrite Hrs, <- app_assoc; reflexivity.
Qed.

(** What [fetch_data] returns is never empty. *)
Lemma fetch_data_returns_records (self : BookScraper) (page : Page)
    (out out' : list str) (results : list BookData) :
  fetch_data float self page out = (out', inr results) ->
  results <> [] /\ Forall2 (fun book r => extract float book = inr r) page results.
Proof.
  intros Hrun. pose proof (fetch_data_inv _ _ _ _ _ _ Hrun) as HF.
  split; [|exact HF].
  destruct page as [|book page]; [discriminate Hrun|].
  intros ->. inversion HF.
Qed.

(** On a page of well-formed entries, the first one visible. *)
Lemma fetch_data_well_formed (self : BookScraper) (page : Page)
    (out : list str) :
  first_visible page ->
  Forall (well_formed float) page ->
  exists out' results,
    fetch_data float self page out = (out', inr results)
    /\ Forall2 (fun book r => extract float book = inr r) page results.
Proof.
  intros Hvis Hwf.
  destruct (well_formed_all_extract float page Hwf) as [rs Hrs].
  exists (out ++ starting_line self :: map scraped_line rs), rs.
  split; [|exact Hrs].
  unfold fetch_data, query_selector_all_product_pod.
  unfold bind at 1. unfold print, modify. unfold bind at 1.
  rewrite (wait_first_visible _ _ Hvis). unfold bind at 1.
  rewrite (for_book_in_all float page rs [] _ Hrs).
  unfold ret, write_line, stdout_lines, starting_line.
  rewrite <- app_assoc. reflexivity.
Qed.

End MainProperties.

(** The constructor prints nothing. *)
Lemma DatabaseManager_init_stdout (resolve : string -> option Url)
    (f : Faults) (connection_string : string) (w : World) :
  stdout (fst (DatabaseManager_init resolve f connection_string w)) = stdout w.
Proof.
  unfold DatabaseManager_init, create_engine, bind, metadata_create_all.
  destruct (resolve connection_string) as [[|file]|]; [| |reflexivity].
  - destruct (database_at _ w !! BookModel.__tablename__);
      [reflexivity|].
    destruct (write_txn w !! _); reflexivity.
  - destruct (database_at _ w !! BookModel.__tablename__);
      [reflexivity|].
    destruct (write_txn w !! _); reflexivity.
Qed.

(** On a database file no writer holds the constructor returns. *)
Lemma DatabaseManager_init_unlocked (resolve : string -> option Url)
    (f : Faults) (connection_string file : string) (w : World) :
  resolve connection_string = Some (FileUrl file) ->
  write_txn w !! OnDisk file = None ->
  exists w1,
    DatabaseManager_init resolve f connection_string w
    = (w1, inr {| engine := OnDisk file |}).
Proof.
  intros Hfile Hlock.
  rewrite (DatabaseManager_init_file resolve f _ file w Hfile).
  unfold metadata_create_all. rewrite Hlock.
  destruct (database_at (OnDisk file) w !! BookModel.__tablename__);
    eexists; reflexivity.
Qed.

(** None of the lines of the scraper and of [save_books] starts with the
    N of "No data found.". *)
Lemma no_data_line_not_among (lines : list str) :
  Forall (fun line => head line <> Some 78%N) lines -> no_data_line ∉ lines.
Proof.
  intros HF Hin. rewrite Forall_forall in HF.
  apply (HF no_data_line Hin). reflexivity.
Qed.

Lemma scraped_lines_head (rs : list BookData) :
  Forall (fun line => head line <> Some 78%N) (map scraped_line rs).
Proof.
  induction rs as [|r rs IH]; constructor; [discriminate | exact IH].
Qed.

(** [main] when the store is constructed and the scraper returns. *)
Lemma main_run (resolve : string -> option Url)
    (float : str -> option pyfloat) (page : Page) (f : Faults)
    (w w1 : World) (m : DatabaseManager) (out : list str)
    (data : list BookData) :
  DatabaseManager_init resolve f DB_CONNECTION w = (w1, inr m) ->
  fetch_data float {| base_url := TARGET_URL |} page (stdout w1)
  = (out, inr data) ->
  main resolve float page f w
  = (after_save f m data
       {| databases := databases w1; write_txn := write_txn w1;
          stdout := out; session := session w1 |},
     inr tt).
Proof.
  intros Hinit Hfetch.
  destruct (fetch_data_returns_records float _ _ _ _ _ Hfetch) as [Hne _].
  unfold main. unfold bind at 1. unfold lift_store at 1. rewrite Hinit.
  unfold bind at 1. unfold lift_scrape. rewrite Hfetch.
  destruct data as [|d data]; [congruence|].
  unfold lift_store. rewrite save_books_run. reflexivity.
Qed.

(** [main] when the store is constructed and the scraper raises. *)
Lemma main_run_scrape_raises (resolve : string -> option Url)
    (float : str -> option pyfloat) (page : Page)
    (f : Faults) (w w1 : World) (m : DatabaseManager) (out : list str)
    (e : ScrapeError) :
  DatabaseManager_init resolve f DB_CONNECTION w = (w1, inr m) ->
  fetch_data float {| base_url := TARGET_URL |} page (stdout w1)
  = (out, inl e) ->
  main resolve float page f w
  = ({| databases := databases w1; write_txn := write_txn w1;
        stdout := out; session := session w1 |},
     inl (ScrapeRaised e)).
Proof.
  intros Hinit Hfetch.
  unfold main. unfold bind at 1. unfold lift_store at 1. rewrite Hinit.
  unfold bind at 1. unfold lift_scrape. rewrite Hfetch. reflexivity.
Qed.

(** X11.  [main] never prints "No data found.": [fetch_data] raises or
    returns at least one record, so the [else] branch is not taken on a
    document that stays as it is during the run. *)
Theorem main_never_prints_no_data (resolve : string -> option Url)
    (float : str -> option pyfloat) (page : Page) (f : Faults) (w : World) :
  exists lines,
    stdout (fst (main resolve float page f w)) = stdout w ++ lines
    /\ no_data_line ∉ lines.
Proof.
  unfold main. unfold bind at 1. unfold lift_store at 1.
  pose proof (DatabaseManager_init_stdout resolve f DB_CONNECTION w) as Hout.
  destruct (DatabaseManager_init resolve f DB_CONNECTION w) as [w1 [e|m]].
  - exists []. simpl in *. rewrite app_nil_r. split; [exact Hout|].
    intros H. inversion H.
  - simpl in Hout. unfold bind at 1. unfold lift_scrape.
    destruct (fetch_data_output float {| base_url := TARGET_URL |} page
                (stdout w1)) as [rs Hrs].
    destruct (fetch_data float {| base_url := TARGET_URL |} page (stdout w1))
      as [out [e|data]] eqn:Hfetch; simpl in Hrs; subst out.
    + exists (starting_line {| base_url := TARGET_URL |} :: map scraped_line rs).
      simpl. rewrite Hout. split; [reflexivity|].
      apply no_data_line_not_among.
      constructor; [discriminate | apply scraped_lines_head].
    + destruct (fetch_data_returns_records float _ _ _ _ _ Hfetch) as [Hne _].
      destruct data as [|d data]; [congruence|].
      unfold lift_store. rewrite save_books_run.
      match goal with
      | |- context [after_save f m (d :: data) ?W] => set (w2 := W)
      end.
      set (line := match save_fault f m (d :: data) w2 with
                   | Some e => error_line e
                   | None => success_line (d :: data)
                   end).
      exists (starting_line {| base_url := TARGET_URL |}
                :: map scraped_line rs ++ [line]).
      split.
      * unfold after_save, line.
        destruct (save_fault f m (d :: data) w2); simpl;
          rewrite Hout, <- app_assoc; reflexivity.
      * apply no_data_line_not_among.
        constructor; [discriminate|].
        apply Forall_app. split; [apply scraped_lines_head|].
        constructor; [|constructor].
        unfold line. destruct (save_fault f m (d :: data) w2); discriminate.
Qed.

(** X12.  End to end, for a connection string that names a database
    file: on a page of well-formed entries, the first one visible, whose
    texts can be bound, with a database no writer holds, no storage fault
    for the batch, and a [books] table that, if it was there, has the
    columns of [BookModel] and room for the batch above its rowids,
    [main] returns normally and a reader finds the rows of before (none
    if the table was not there) and one row per entry of the page, with
    the fields extracted from it as the store keeps them. *)
Theorem main_saves_every_entry (resolve : string -> option Url)
    (float : str -> option pyfloat) (page : Page) (f : Faults) (w : World)
    (file : string) :
  resolve DB_CONNECTION = Some (FileUrl file) ->
  first_visible page ->
  Forall (well_formed float) page ->
  Forall (fun book => forall r, extract float book = inr r -> storable r)
    page ->
  write_txn w !! OnDisk file = None ->
  fault_free f (length page) ->
  (Z.of_nat (length page) <= max_rowid)%Z ->
  (forall t,
     database_at (OnDisk file) w !! BookModel.__tablename__ = Some t ->
     columns t = BookModel.__table__ /\ room_for (length page) (rows t)) ->
  exists rs news,
    snd (main resolve float page f w) = inr tt
    /\ query_all {| engine := OnDisk file |}
         (fst (main resolve float page f w))
       = Some rs
    /\ rs ≡ₚ default [] (query_all {| engine := OnDisk file |} w) ++ news
    /\ Forall2 (fun book row =>
                  exists r, extract float book = inr r /\ stored_fields r row)
         page news.
Proof.
  intros Hfile Hvis Hwf Htexts Hlock Hfree Hfits Hschema.
  set (m := {| engine := OnDisk file |}).
  destruct (DatabaseManager_init_unlocked resolve f DB_CONNECTION file w
              Hfile Hlock) as [w1 Hinit].
  fold m in Hinit.
  destruct (table_after_init _ _ _ _ _ _ Hinit) as (t & Ht & Hwas).
  pose proof (DatabaseManager_init_returns _ _ _ _ _ _ Hinit)
    as (Htxn & _ & _ & _).
  destruct (fetch_data_well_formed float {| base_url := TARGET_URL |} page
              (stdout w1) Hvis Hwf) as (out & data & Hfetch & Hdata).
  pose proof (Forall2_length _ _ _ Hdata) as Hlen.
  rewrite (main_run resolve float page f w w1 m out data Hinit Hfetch).
  set (w2 := {| databases := databases w1; write_txn := write_txn w1;
                stdout := out; session := session w1 |}).
  assert (Ht2 : database_at (engine m) w2 !! BookModel.__tablename__ = Some t)
    by exact Ht.
  assert (Ht_ok : columns t = BookModel.__table__
                  /\ room_for (length data) (rows t)
                  /\ default [] (query_all m w) = in_rowid_order (rows t)).
  { rewrite <- Hlen. unfold query_all. cbn [engine m] in Hwas |- *.
    destruct (database_at (OnDisk file) w !! BookModel.__tablename__)
      as [t0|] eqn:Ht0; subst t.
    - destruct (Hschema t0 eq_refl) as [Hc Hr]. split; [exact Hc|].
      split; [exact Hr|]. cbn [mbind option_bind].
      rewrite (proj2 (has_columns_model t0 Hc)). reflexivity.
    - split; [reflexivity|]. split; [|reflexivity].
      intros i Hi. simpl in Hi.
      apply list_elem_of_singleton in Hi. subst i. lia. }
  destruct Ht_ok as (Hcols & Hroom & Hold).
  destruct (has_columns_model t Hcols) as [Hins Hsel].
  assert (Hdata_ok : Forall storable data).
  { clear -Hdata Htexts. induction Hdata as [|book r page data Hbr _ IH];
      [constructor|].
    inversion Htexts as [|? ? Hb Hbs]; subst.
    constructor; [exact (Hb r Hbr) | exact (IH Hbs)]. }
  assert (Hok : save_fault f m data w2 = None).
  { apply (save_fault_fault_free f m data w2 t); try assumption.
    - rewrite <- Hlen. exact Hfree.
    - simpl. rewrite Htxn. exact Hlock. }
  destruct (table_after_save f m data w2 t Ht2)
    as (t' & Ht' & Hcols' & _ & Hrows).
  destruct (Hrows Hok) as (news & Hnews & HF).
  rewrite save_books_run in Ht'. cbn [fst snd] in *.
  exists (in_rowid_order (rows t')), news.
  split; [reflexivity|]. split; [|split].
  - unfold query_all at 1. rewrite Ht'. cbn [mbind option_bind].
    rewrite (has_columns_same _ _ _ Hcols'), Hsel. reflexivity.
  - rewrite Hold, !in_rowid_order_permutation, Hnews. reflexivity.
  - exact (Forall2_compose _ _ _ _ _ Hdata HF).
Qed.

Lemma main_saves_every_entry_witness :
  exists rs news,
    snd (main resolve_sqlite float_of_str [attic_mojibake; attic_untitled]
           no_faults empty_world) = inr tt
    /\ query_all {| engine := OnDisk "books.db" |}
         (fst (main resolve_sqlite float_of_str
                 [attic_mojibake; attic_untitled] no_faults empty_world))
       = Some rs
    /\ rs ≡ₚ default []
               (query_all {| engine := OnDisk "books.db" |} empty_world)
             ++ news
    /\ Forall2 (fun book row =>
                  exists r, extract float_of_str book = inr r
                            /\ stored_fields r row)
         [attic_mojibake; attic_untitled] news.
Proof.
  apply (main_saves_every_entry resolve_sqlite float_of_str
           [attic_mojibake; attic_untitled] no_faults empty_world "books.db").
  - reflexivity.
  - exists attic_mojibake. split; reflexivity.
  - repeat constructor; apply extract_well_formed; eexists;
      vm_compute; reflexivity.
  - repeat constructor; intros r Hr; vm_compute in Hr;
      injection Hr as <-; reflexivity.
  - reflexivity.
  - split; [intros k _; split; reflexivity | reflexivity].
  - vm_compute. discriminate.
  - intros t Ht. vm_compute in Ht. discriminate.
Defined.

(** X13.  The store is constructed before the page is scraped: for a
    connection string that names a database file no writer holds, when
    [fetch_data] raises, [main] raises the same exception, nothing is
    saved, and the [books] table is there all the same: the one of
    before, read as before, or a new one without rows. *)
Theorem main_scrape_failure (resolve : string -> option Url)
    (float : str -> option pyfloat) (page : Page) (f : Faults) (w : World)
    (file : string) (e : ScrapeError) :
  resolve DB_CONNECTION = Some (FileUrl file) ->
  write_txn w !! OnDisk file = None ->
  snd (fetch_data float {| base_url := TARGET_URL |} page (stdout w)) = inl e ->
  snd (main resolve float page f w) = inl (ScrapeRaised e)
  /\ query_all {| engine := OnDisk file |} (fst (main resolve float page f w))
     = match database_at (OnDisk file) w !! BookModel.__tablename__ with
       | Some _ => query_all {| engine := OnDisk file |} w
       | None => Some []
       end
  /\ write_txn (fst (main resolve float page f w)) = write_txn w.
Proof.
  intros Hfile Hlock Hfail.
  set (m := {| engine := OnDisk file |}).
  destruct (DatabaseManager_init_unlocked resolve f DB_CONNECTION file w
              Hfile Hlock) as [w1 Hinit].
  fold m in Hinit.
  destruct (table_after_init _ _ _ _ _ _ Hinit) as (t & Ht & Hwas).
  pose proof (DatabaseManager_init_returns _ _ _ _ _ _ Hinit)
    as (Htxn & Hout & _ & _).
  destruct (fetch_data float {| base_url := TARGET_URL |} page (stdout w))
    as [out [e'|data]] eqn:Hfetch; simpl in Hfail; [|discriminate].
  injection Hfail as ->. rewrite <- Hout in Hfetch.
  rewrite (main_run_scrape_raises resolve float page f w w1 m out e
             Hinit Hfetch).
  cbn [fst snd].
  split; [reflexivity|]. split; [|exact Htxn].
  unfold query_all.
  change (database_at (engine m)
            {| databases := databases w1; write_txn := write_txn w1;
               stdout := out; session := session w1 |})
    with (database_at (engine m) w1).
  rewrite Ht. cbn [engine m] in Hwas |- *.
  destruct (database_at (OnDisk file) w !! BookModel.__tablename__)
    as [t0|]; subst t; reflexivity.
Qed.

Lemma main_scrape_failure_witness :
  snd (main resolve_sqlite float_of_str [attic_pound] no_faults empty_world)
  = inl (ScrapeRaised ValueError)
  /\ query_all {| engine := OnDisk "books.db" |}
       (fst (main resolve_sqlite float_of_str [attic_pound] no_faults
               empty_world))
     = match database_at (OnDisk "books.db") empty_world
               !! BookModel.__tablename__ with
       | Some _ => query_all {| engine := OnDisk "books.db" |} empty_world
       | None => Some []
       end
  /\ write_txn (fst (main resolve_sqlite float_of_str [attic_pound] no_faults
                       empty_world))
     = write_txn empty_world.
Proof.
  apply (main_scrape_failure resolve_sqlite float_of_str [attic_pound]
           no_faults empty_world "books.db" ValueError).
  - reflexivity.
  - reflexivity.
  - vm_compute. reflexivity.
Defined.

(** X14.  Storage faults never make [main] fail: once the store is
    constructed and [fetch_data] has returned, [main] returns normally
    whatever faults [save_books] meets, with the session of [save_books]
    closed, no object left in it, and the open transactions as they
    were. *)
Theorem main_survives_storage_faults (resolve : string -> option Url)
    (float : str -> option pyfloat) (page : Page) (f : Faults) (w w1 : World)
    (m : DatabaseManager) (out : list str) (data : list BookData) :
  DatabaseManager_init resolve f DB_CONNECTION w = (w1, inr m) ->
  fetch_data float {| base_url := TARGET_URL |} page (stdout w)
  = (out, inr data) ->
  snd (main resolve float page f w) = inr tt
  /\ session (fst (main resolve float page f w)) = closed_session m
  /\ write_txn (fst (main resolve float page f w)) = write_txn w.
Proof.
  intros Hinit Hfetch.
  pose proof (DatabaseManager_init_returns _ _ _ _ _ _ Hinit)
    as (Htxn & Hout & _ & _).
  rewrite <- Hout in Hfetch.
  rewrite (main_run resolve float page f w w1 m out data Hinit Hfetch).
  cbn [fst snd]. unfold after_save.
  destruct (save_fault f m data _); repeat split; exact Htxn.
Qed.

Lemma main_survives_storage_faults_witness :
  snd (main resolve_sqlite float_of_str [attic_mojibake] commit_fails
         empty_world) = inr tt
  /\ session (fst (main resolve_sqlite float_of_str [attic_mojibake]
                     commit_fails empty_world))
     = closed_session manager
  /\ write_txn (fst (main resolve_sqlite float_of_str [attic_mojibake]
                       commit_fails empty_world))
     = write_txn empty_world.
Proof.
  apply (main_survives_storage_faults resolve_sqlite float_of_str
           [attic_mojibake] commit_fails empty_world ready_world manager
           [starting_line toscrape; scraped_line attic_record]
           [attic_record]).
  - vm_compute. reflexivity.
  - vm_compute. reflexivity.
Defined.
